(** * diana2: the collector daemon and the DICOM directory endpoint

    A shallow embedding of [diana/daemons/collector2.py] ([Collector.run],
    [Collector.handle_item]) and of [diana/apis/dcmdir.py] ([DcmDir.put],
    [DcmDir.exists]), with the properties the specification states about
    them.

    Python values are embedded as follows.
    - Exceptions are a sum [Outcome]; a statement that raises makes the
      enclosing function raise unless a [try] catches it.
    - The module-level counters [handled], [skipped], [failed] are
      [multiprocessing.Value('i', 0)], i.e. C [int]s: a store to
      [.value] keeps the low 32 bits (two's complement).
    - A [Dixel] is an object; the worklist holds references to objects
      and [item.tags.update(...)] mutates the referenced object.
    - The collaborators whose code is outside the two modules (remote
      source, gateways, key map, report directory, clock) are records of
      methods acting on an abstract external state [Ext].  They receive
      the current value of the record passed to them and do not mutate
      it.
    - Every call the embedded functions make on a collaborator, every
      logging call and every printed line is emitted as an [Event], in
      program order.  [print] and the logging calls are taken to return:
      standard output and the log handlers accept what is written.
    - A float is the rational it stands for: the quotient of the summary
      is rounded to the nearest binary64 number and [round] works on
      that. *)

From Stdlib Require Import ZArith QArith Lia.
From stdpp Require Import base option list functions gmap strings fin_maps.

Local Open Scope string_scope.
Local Open Scope list_scope.
Local Open Scope Z_scope.

(** ** Exceptions *)

Inductive Exn : Type :=
| ValueError
| AttributeError
| KeyError (key : string)
| TypeError
| AssertionError
| FileNotFoundError
| ZeroDivisionError
| OtherError (tag : nat).

Inductive Outcome (A : Type) : Type :=
| Ok (a : A)
| Raise (e : Exn).
Arguments Ok {A} a.
Arguments Raise {A} e.

Definition is_ValueError (e : Exn) : bool :=
  match e with ValueError => true | _ => false end.

Definition is_FileNotFoundError (e : Exn) : bool :=
  match e with FileNotFoundError => true | _ => false end.

(** ** Data model *)

(** [item.report]: the report object is used only through its
    categorization method, so it is represented by what [radcat()]
    does. *)
Record Report : Type := { radcat : Outcome string }.

Record Dixel : Type := {
  tags : gmap string string;
  meta : gmap string string;
  report : option Report;
  file : option (list Byte.byte)
}.

Definition set_tags (t : gmap string string) (d : Dixel) : Dixel :=
  {| tags := t; meta := meta d; report := report d; file := file d |}.

(** Truth value of [item.file]: [None] and the empty bytes object are
    falsy. *)
Definition file_truthy (f : option (list Byte.byte)) : bool :=
  match f with
  | Some (_ :: _) => true
  | _ => false
  end.

Definition file_bytes (f : option (list Byte.byte)) : list Byte.byte :=
  match f with Some b => b | None => [] end.

Inductive DixelView : Type := VTAGS | VFILE.

(** The dictionary [key_data] built on lines 131-139. *)
Record KeyData : Type := {
  kd_modality : string;
  kd_body_part : string;
  kd_cpts : string;
  kd_age : string;
  kd_sex : string;
  kd_status : string;
  kd_radcat : string
}.

(** [key_handler.put((key_id, key_data))] against
    [key_handler.put(key_id, key_data)]. *)
Inductive PutArgs : Type :=
| PutTuple (key_id : string) (key_data : KeyData)
| PutTwo (key_id : string) (key_data : KeyData).

(** Argument of the file gateway's [exists]: [DcmDir.exists] forwards
    whatever it is given. *)
Inductive FnArg : Type :=
| FnStr (fn : string)
| FnItem (d : Dixel).

(** ** Events *)

Inductive LogLevel : Type := DEBUG | INFO | ERROR.

Inductive LogMsg : Type :=
| MsgException (e : Exn)
| MsgFileExists
| MsgNotFindable (d : Dixel)
| MsgNotRetrieved (d : Dixel)
| MsgText (s : string).

Inductive Line : Type :=
| Progress (h s f : Z)
| SummaryHandled (h elapsed : Z)
| SummaryRate (rate : Q)
| SummarySkipped (s : Z)
| SummaryFailed (f : Z).

Inductive Event : Type :=
| Log (lvl : LogLevel) (m : LogMsg)
| Print (l : Line)
| KeyPut (args : PutArgs) (r : Outcome unit)
| ReportPut (d : Dixel) (r : Outcome unit)
| DestExists (d : Dixel) (r : Outcome bool)
| FactoryCopy (r : Outcome unit)
| SourceFind (q : gmap string string) (retrieve : bool)
             (r : Outcome (list (gmap string string)))
| ProxyExists (d : Dixel) (r : Outcome bool)
| ProxyAnonymize (d : Dixel) (remove : bool) (r : Outcome Dixel)
| ProxyGet (d : Dixel) (view : DixelView) (r : Outcome Dixel)
| DestPut (d : Dixel) (r : Outcome unit)
| ProxyDelete (d : Dixel) (r : Outcome unit)
| WriteFile (fn : string) (data : list Byte.byte) (r : Outcome unit)
| Now (r : Outcome Z)
| ProcessStart
| ProcessTerminate
| Sleep (delay : Q).

(** ** The monad of the embedding: state, exceptions, emitted events *)

Definition M (S A : Type) : Type := S -> Outcome A * S * list Event.

Definition ret {S A} (a : A) : M S A := fun s => (Ok a, s, []).

Definition raise {S A} (e : Exn) : M S A := fun s => (Raise e, s, []).

Definition bind {S A B} (m : M S A) (k : A -> M S B) : M S B :=
  fun s =>
    match m s with
    | (Ok a, s1, ev1) =>
        match k a s1 with
        | (o, s2, ev2) => (o, s2, ev1 ++ ev2)
        end
    | (Raise e, s1, ev1) => (Raise e, s1, ev1)
    end.

(** [try: m except <handled>: h]; exceptions that [handles] rejects
    propagate. *)
Definition try_except {S A} (m : M S A) (handles : Exn -> bool)
    (h : Exn -> M S A) : M S A :=
  fun s =>
    match m s with
    | (Ok a, s1, ev1) => (Ok a, s1, ev1)
    | (Raise e, s1, ev1) =>
        if handles e then
          match h e s1 with
          | (o, s2, ev2) => (o, s2, ev1 ++ ev2)
          end
        else (Raise e, s1, ev1)
    end.

Definition emit {S} (e : Event) : M S unit := fun s => (Ok tt, s, [e]).

Definition lift {S A} (o : Outcome A) : M S A := fun s => (o, s, []).

Declare Scope py_scope.
Delimit Scope py_scope with py.
Notation "x <- m ;; k" := (bind m (fun x => k))
  (at level 100, m at next level, k at level 200, right associativity) : py_scope.
Notation "m ;;; k" := (bind m (fun _ => k))
  (at level 100, k at level 200, right associativity) : py_scope.
Local Open Scope py_scope.

(** [d[k]] on a dictionary. *)
Definition getitem {S} (d : gmap string string) (k : string) : M S string :=
  match d !! k with
  | Some v => ret v
  | None => raise (KeyError k)
  end.

(** ** The shared counters *)

Definition INT_MAX : Z := 2147483647.
Definition INT_MIN : Z := -2147483648.

(** What a store of [z] into a C [int] keeps. *)
Definition c_int (z : Z) : Z := (z + 2147483648) mod 4294967296 - 2147483648.

Section Model.

Context {Ext : Type}.

(** A method of a collaborator. *)
Definition Act (A : Type) : Type := Ext -> Outcome A * Ext.

(** ** Collaborators *)

(** [source.proxy], an Orthanc-like endpoint. *)
Record Proxy : Type := {
  proxy_exists : Dixel -> Act bool;
  proxy_anonymize : Dixel -> bool -> Act Dixel;
  proxy_get : Dixel -> DixelView -> Act Dixel;
  proxy_delete : Dixel -> Act unit
}.

Record ProxiedDicom : Type := {
  find : gmap string string -> bool -> Act (list (gmap string string));
  proxy : Proxy
}.

(** The gateway of a [DcmDir], a [DcmFileHandler]. *)
Record DcmFileHandler : Type := {
  write_file : string -> list Byte.byte -> Act unit;
  gw_exists : FnArg -> Act bool
}.

(** [data_dest: Union[DcmDir, ImageDir]] as [handle_item] uses it. *)
Record DataDest : Type := {
  is_ImageDir : bool;
  dest_exists : Dixel -> Act bool;
  dest_put : Dixel -> Act unit
}.

Record ReportDir : Type := {
  rd_truthy : bool;
  rd_put : Dixel -> Act unit
}.

(** A key handler: the key map itself or its queue.  [kh_truthy] is the
    truth value of the object. *)
Record KeyHandler : Type := {
  kh_truthy : bool;
  kh_put : PutArgs -> Act unit
}.

(** [isinstance(key_handler, Queue)], line 142.  [Queue] is the name
    imported from [multiprocessing] on line 1: a bound method of the
    default context, not a class.  [isinstance] accepts a class, a tuple
    of classes or a union as its second argument and raises [TypeError]
    for anything else, whatever its first argument is. *)
Definition isinstance_Queue (key_handler : KeyHandler) : Outcome bool :=
  Raise TypeError.

(** [CSVArrayPMap]: the object as a key handler, its [queue] attribute
    and its bound method [run] (the drain loop of the key writer). *)
Record CSVArrayPMap : Type := {
  km_self : KeyHandler;
  km_queue : KeyHandler;
  km_run : Act unit
}.

(** An [ImageDir] as the collector uses it. *)
Record ImageDir : Type := {
  im_exists : Dixel -> Act bool;
  im_put : Dixel -> Act unit
}.

(** What the modules import from outside the repository's two files. *)
Record Runtime : Type := {
  Factory_copy : ProxiedDicom -> Act ProxiedDicom;
  datetime_now : Act Z;
  ImageDir_new : string -> Z -> Z -> bool -> ImageDir;
  DcmFileHandler_new : string -> Z -> Z -> DcmFileHandler;
  ReportDir_new : string -> Z -> Z -> bool -> ReportDir;
  CSVArrayPMap_new : string -> string -> list string -> CSVArrayPMap;
  Dixel_fn : Dixel -> string
}.

(** ** State *)

Record World : Type := {
  handled : Z;
  skipped : Z;
  failed : Z;
  heap : nat -> Dixel;
  ext : Ext
}.

Definition set_ext (e : Ext) (w : World) : World :=
  {| handled := handled w; skipped := skipped w; failed := failed w;
     heap := heap w; ext := e |}.

Definition set_heap (h : nat -> Dixel) (w : World) : World :=
  {| handled := handled w; skipped := skipped w; failed := failed w;
     heap := h; ext := ext w |}.

(** A call on a collaborator: the call is emitted with its outcome. *)
Definition call {A} (a : Act A) (ev : Outcome A -> Event) : M World A :=
  fun w =>
    match a (ext w) with
    | (r, e') => (r, set_ext e' w, [ev r])
    end.

(** The same for code that runs directly on the external state. *)
Definition gcall {A} (a : Act A) (ev : Outcome A -> Event) : M Ext A :=
  fun e =>
    match a e with
    | (r, e') => (r, e', [ev r])
    end.

Definition deref (item : nat) : M World Dixel :=
  fun w => (Ok (heap w item), w, []).

(** [item.tags.update(r0)]: keys of [r0] win. *)
Definition tags_update (item : nat) (r0 : gmap string string) : M World unit :=
  fun w =>
    (Ok tt,
     set_heap (<[item := set_tags (r0 ∪ tags (heap w item)) (heap w item)]> (heap w)) w,
     []).

(** [handled.value += 1] and its siblings. *)
Definition incr_handled : M World unit :=
  fun w =>
    (Ok tt,
     {| handled := c_int (handled w + 1); skipped := skipped w;
        failed := failed w; heap := heap w; ext := ext w |}, []).

Definition incr_skipped : M World unit :=
  fun w =>
    (Ok tt,
     {| handled := handled w; skipped := c_int (skipped w + 1);
        failed := failed w; heap := heap w; ext := ext w |}, []).

Definition incr_failed : M World unit :=
  fun w =>
    (Ok tt,
     {| handled := handled w; skipped := skipped w;
        failed := c_int (failed w + 1); heap := heap w; ext := ext w |}, []).

(** [print("Handled {} items, skipped {}, failed {}".format(...))]. *)
Definition print_progress : M World unit :=
  fun w => (Ok tt, w, [Print (Progress (handled w) (skipped w) (failed w))]).

(** ** dcmdir.py *)

Record DcmDir : Type := {
  name : string;
  path : string;
  subpath_width : Z;
  subpath_depth : Z;
  gateway : DcmFileHandler
}.

(** [DcmDir.put], lines 25-30. *)
Definition DcmDir_put (rt : Runtime) (self : DcmDir) (item : Dixel) : M Ext unit :=
  emit (Log DEBUG (MsgText "EP PUT")) ;;;
  if negb (file_truthy (file item)) then raise ValueError
  else
    gcall (write_file (gateway self) (Dixel_fn rt item) (file_bytes (file item)))
          (WriteFile (Dixel_fn rt item) (file_bytes (file item))).

(** [DcmDir.exists], lines 72-75. *)
Definition DcmDir_exists (self : DcmDir) (fn : FnArg) : M Ext bool :=
  emit (Log DEBUG (MsgText "EP EXISTS")) ;;;
  fun e => match gw_exists (gateway self) fn e with (r, e') => (r, e', []) end.

(** The constructor with the gateway default of lines 18-23. *)
Definition DcmDir_new (rt : Runtime) (path : string) (w d : Z) : DcmDir :=
  {| name := "DcmDir"; path := path; subpath_width := w; subpath_depth := d;
     gateway := DcmFileHandler_new rt path w d |}.

(** A [DcmDir] used as [data_dest]. *)
Definition DcmDir_as_dest (rt : Runtime) (self : DcmDir) : DataDest :=
  {| is_ImageDir := false;
     dest_exists := fun d e =>
       match DcmDir_exists self (FnItem d) e with (r, e', _) => (r, e') end;
     dest_put := fun d e =>
       match DcmDir_put rt self d e with (r, e', _) => (r, e') end |}.

(** ** collector2.py: [Collector.handle_item] *)

(** [item.report.radcat()]; an absent report is [None], which has no
    attribute [radcat]. *)
Definition report_radcat (d : Dixel) : M World string :=
  match report d with
  | None => raise AttributeError
  | Some r => lift (radcat r)
  end.

(** Key extraction, lines 123-139. *)
Definition key_extraction (d : Dixel) : M World (string * KeyData) :=
  rc <- try_except (report_radcat d) is_ValueError
          (fun e => emit (Log ERROR (MsgException e)) ;;; ret "") ;;
  key_id <- getitem (tags d) "AccessionNumber" ;;
  modality <- getitem (tags d) "Modality" ;;
  body_part <- getitem (meta d) "BodyParts" ;;
  cpts <- getitem (meta d) "CPTCodes" ;;
  age <- getitem (meta d) "PatientAge" ;;
  sex <- getitem (tags d) "PatientSex" ;;
  status <- getitem (meta d) "PatientStatus" ;;
  ret (key_id,
       {| kd_modality := modality; kd_body_part := body_part; kd_cpts := cpts;
          kd_age := age; kd_sex := sex; kd_status := status; kd_radcat := rc |}).

(** Key emission, lines 141-145. *)
Definition key_emission (key_handler : option KeyHandler)
    (key_id : string) (key_data : KeyData) : M World unit :=
  match key_handler with
  | Some kh =>
      if kh_truthy kh then
        is_queue <- lift (isinstance_Queue kh) ;;
        if (is_queue : bool) then
          call (kh_put kh (PutTuple key_id key_data)) (KeyPut (PutTuple key_id key_data))
        else
          call (kh_put kh (PutTwo key_id key_data)) (KeyPut (PutTwo key_id key_data))
      else ret tt
  | None => ret tt
  end.

(** Report persist, lines 151-152. *)
Definition report_persist (report_dest : option ReportDir) (d : Dixel) : M World unit :=
  match report_dest with
  | Some rd => if rd_truthy rd then call (rd_put rd d) (ReportPut d) else ret tt
  | None => ret tt
  end.

(** The dictionary [mkq] returns, lines 168-178: the accession number and
    eight blanked fields. *)
Definition accession_query (an : string) : gmap string string :=
  list_to_map
    [("PatientName", ""); ("PatientID", ""); ("PatientBirthDate", "");
     ("PatientSex", ""); ("AccessionNumber", an); ("StudyDescription", "");
     ("StudyInstanceUID", ""); ("StudyDate", ""); ("StudyTime", "")].

(** [mkq], lines 167-178. *)
Definition mkq (d : Dixel) : M World (gmap string string) :=
  an <- getitem (tags d) "AccessionNumber" ;;
  ret (accession_query an).

Definition forget {A} (r : Outcome A) : Outcome unit :=
  match r with Ok _ => Ok tt | Raise e => Raise e end.

(** The image stage, lines 158-224.  [item] is the reference the caller
    passed; after line 205 the local name denotes the record the proxy
    returned. *)
Definition images (rt : Runtime) (item : nat) (source : ProxiedDicom)
    (data_dest : DataDest) (anonymize : bool) : M World unit :=
  d <- deref item ;;
  present <- call (dest_exists data_dest d) (DestExists d) ;;
  if (present : bool) then
    emit (Log INFO MsgFileExists) ;;;
    incr_skipped ;;;
    print_progress
  else
    source <- call (Factory_copy rt source) (fun r => FactoryCopy (forget r)) ;;
    q <- mkq d ;;
    r <- call (find source q true) (SourceFind q true) ;;
    match r with
    | [] =>
        emit (Log ERROR (MsgNotFindable d)) ;;;
        incr_failed ;;;
        print_progress
    | r0 :: _ =>
        tags_update item r0 ;;;
        d <- deref item ;;
        staged <- call (proxy_exists (proxy source) d) (ProxyExists d) ;;
        if negb staged then
          emit (Log ERROR (MsgNotRetrieved d)) ;;;
          incr_failed ;;;
          print_progress
        else
          d <- (if anonymize && negb (is_ImageDir data_dest) then
                  call (proxy_anonymize (proxy source) d true) (ProxyAnonymize d true)
                else ret d) ;;
          fetched <- try_except
                       (x <- call (proxy_get (proxy source) d VFILE) (ProxyGet d VFILE) ;;
                        ret (Some x))
                       is_FileNotFoundError
                       (fun e =>
                          emit (Log ERROR (MsgException e)) ;;;
                          incr_failed ;;;
                          print_progress ;;;
                          ret None) ;;
          match fetched with
          | None => ret tt
          | Some d =>
              call (dest_put data_dest d) (DestPut d) ;;;
              call (proxy_delete (proxy source) d) (ProxyDelete d) ;;;
              incr_handled ;;;
              print_progress
          end
    end.

(** [Collector.handle_item], lines 111-224: keying, report, images. *)
Definition handle_item (rt : Runtime) (item : nat) (source : ProxiedDicom)
    (data_dest : DataDest) (report_dest : option ReportDir)
    (anonymize : bool) (key_handler : option KeyHandler) : M World unit :=
  d <- deref item ;;
  key <- key_extraction d ;;
  key_emission key_handler (fst key) (snd key) ;;;
  report_persist report_dest d ;;;
  images rt item source data_dest anonymize.

(** ** collector2.py: [Collector.run] *)

Record Collector : Type := {
  pool_size : Z;
  pool : option Z;
  sublist_len : Z
}.

(** The attrs defaults of lines 23-34: [pool] is [Pool(pool_size)] when
    [pool_size > 0] and [None] otherwise. *)
Definition Collector_new (pool_size : Z) : Collector :=
  {| pool_size := pool_size;
     pool := if 0 <? pool_size then Some pool_size else None;
     sublist_len := 2 * pool_size |}.

(** What the name [p] of [run] can hold. *)
Inductive Mapped : Type :=
| PartialHandleItem (source : ProxiedDicom) (data_dest : DataDest)
    (report_dest : option ReportDir) (anonymize : bool)
    (key_handler : option KeyHandler)
| ProcessObject.

(** [multiprocessing.Process(group=None, target=None, ...)]: the
    constructor asserts [group is None] (assertions enabled, as they
    are unless the interpreter is started with [-O]). *)
Definition Process_new {T} (group : option T) (target : option T) : M World Mapped :=
  match group with
  | Some _ => raise AssertionError
  | None => ret ProcessObject
  end.

(** Calling what is mapped on one item; a process object is not a
    callable. *)
Definition apply_mapped (rt : Runtime) (p : Mapped) (item : nat) : M World unit :=
  match p with
  | PartialHandleItem source data_dest report_dest anonymize key_handler =>
      handle_item rt item source data_dest report_dest anonymize key_handler
  | ProcessObject => raise TypeError
  end.

(** [pool.map(p, slice)], the workers taken one after the other. *)
Fixpoint pool_map (rt : Runtime) (p : Mapped) (slice : list nat) : M World (list unit) :=
  match slice with
  | [] => ret []
  | item :: rest =>
      x <- apply_mapped rt p item ;;
      xs <- pool_map rt p rest ;;
      ret (x :: xs)
  end.

(** [itertools.islice(worklist, n)], the worklist read as an iterator:
    the slice and what is left of the iterator.  (On a list every call
    starts from the first item again.)  [run] does not get as far as
    this call: see [run_pooled_aborts]. *)
Definition islice (worklist : list nat) (n : Z) : M World (list nat * list nat) :=
  if n <? 0 then raise ValueError
  else ret (take (Z.to_nat n) worklist, drop (Z.to_nat n) worklist).

(** The loop of lines 93-98; one unit of [fuel] per round. *)
Fixpoint pool_loop (rt : Runtime) (fuel : nat) (self : Collector) (p : Mapped)
    (worklist : list nat) (delay : Q) : M World unit :=
  match fuel with
  | O => ret tt
  | S fuel' =>
      match pool self with
      | None => raise AttributeError
      | Some _ =>
          sl <- islice worklist (sublist_len self) ;;
          result <- pool_map rt p (fst sl) ;;
          match result with
          | [] => ret tt
          | _ :: _ => emit (Sleep delay) ;;; pool_loop rt fuel' self p (snd sl) delay
          end
      end
  end.

(** [for item in worklist: Collector.handle_item(item=item, ...)]. *)
Fixpoint serial_loop (rt : Runtime) (worklist : list nat) (source : ProxiedDicom)
    (data_dest : DataDest) (report_dest : option ReportDir)
    (anonymize : bool) (key_handler : option KeyHandler) : M World unit :=
  match worklist with
  | [] => ret tt
  | item :: rest =>
      handle_item rt item source data_dest report_dest anonymize key_handler ;;;
      serial_loop rt rest source data_dest report_dest anonymize key_handler
  end.

(** [(toc - tic).seconds] for two clock readings in microseconds: the
    seconds field of the normalized [timedelta]. *)
Definition timedelta_seconds (tic toc : Z) : Z :=
  ((toc - tic) mod 86400000000) / 1000000.

(** [(toc - tic).seconds or 1], line 102. *)
Definition elapsed_time (tic toc : Z) : Z :=
  if timedelta_seconds tic toc =? 0 then 1 else timedelta_seconds tic toc.

(** [n / d] for [0 < d], rounded to the nearest integer, ties to the
    even one. *)
Definition round_half_even (n d : Z) : Z :=
  let q := n / d in
  let r := n mod d in
  if 2 * r <? d then q
  else if d <? 2 * r then q + 1
  else if Z.even q then q else q + 1.

(** A float is the rational it stands for.  [binary64 x] is the float
    nearest to [x], ties to the even significand: the significand has
    53 bits.  The exponent is not bounded here: the quotient of a C int
    by a number of seconds is far from the overflow and underflow
    thresholds. *)
Definition binary64_pos (a b : Z) : Q :=
  let e0 := Z.log2 a - Z.log2 b in
  let p := if b * 2 ^ Z.max 0 e0 <=? a * 2 ^ Z.max 0 (- e0) then e0 else e0 - 1 in
  let e := p - 52 in
  let m := round_half_even (a * 2 ^ Z.max 0 (- e)) (b * 2 ^ Z.max 0 e) in
  Qred (Qmake (m * 2 ^ Z.max 0 e) (Z.to_pos (2 ^ Z.max 0 (- e)))).

Definition binary64 (x : Q) : Q :=
  match Qnum x with
  | 0 => 0%Q
  | Zpos a => binary64_pos (Zpos a) (Zpos (Qden x))
  | Zneg a => Qopp (binary64_pos (Zpos a) (Zpos (Qden x)))
  end.

(** [a / b] on integers: the float nearest to the quotient. *)
Definition truediv {S} (a b : Z) : M S Q :=
  if b =? 0 then raise ZeroDivisionError
  else ret (binary64 (Qdiv (inject_Z a) (inject_Z b))).

(** [round(number, ndigits)] on a float, for [0 <= ndigits]: the
    decimal with [ndigits] digits after the point nearest to the value
    of the float, ties to the even digit.  The line shows this decimal;
    the sign of a zero is not kept. *)
Definition round (number : Q) (ndigits : Z) : Q :=
  let s := 10 ^ ndigits in
  Qred (Qmake (round_half_even (Qnum number * s) (Zpos (Qden number))) (Z.to_pos s)).

Definition ImageDir_as_dest (im : ImageDir) : DataDest :=
  {| is_ImageDir := true; dest_exists := im_exists im; dest_put := im_put im |}.

Definition fieldnames : list string :=
  ["id"; "modality"; "body_part"; "cpts"; "age"; "sex"; "status"; "radcat"].

(** The summary of lines 101-108. *)
Definition report_summary (tic toc : Z) : M World unit :=
  h <- (fun w => (Ok (handled w), w, [])) ;;
  rate <- truediv h (elapsed_time tic toc) ;;
  emit (Print (SummaryHandled h (elapsed_time tic toc))) ;;;
  emit (Print (SummaryRate (round rate 1))) ;;;
  s <- (fun w => (Ok (skipped w), w, [])) ;;
  emit (Print (SummarySkipped s)) ;;;
  f <- (fun w => (Ok (failed w), w, [])) ;;
  emit (Print (SummaryFailed f)).

(** [Collector.run], lines 43-108. *)
Definition run (rt : Runtime) (self : Collector) (worklist : list nat)
    (source : ProxiedDicom) (dest_path : string)
    (inline_reports anonymize save_as_im : bool) (delay : Q) : M World unit :=
  tic <- call (datetime_now rt) Now ;;
  let data_dest :=
    if save_as_im then
      ImageDir_as_dest (ImageDir_new rt (dest_path +:+ "/images") 2 2 anonymize)
    else
      DcmDir_as_dest rt (DcmDir_new rt (dest_path +:+ "/images") 2 2) in
  let report_dest :=
    if negb inline_reports then
      Some (ReportDir_new rt (dest_path +:+ "/reports") 2 2 anonymize)
    else None in
  let pattern := dest_path +:+ "/meta/key-{}.csv" in
  let key_handler := CSVArrayPMap_new rt pattern "id" fieldnames in
  (if pool_size self =? 0 then
     serial_loop rt worklist source data_dest report_dest anonymize
       (Some (km_self key_handler))
   else
     let p := PartialHandleItem source data_dest report_dest anonymize
                (Some (km_queue key_handler)) in
     p <- Process_new (Some (km_run key_handler)) None ;;
     emit ProcessStart ;;;
     pool_loop rt (S (length worklist)) self p worklist delay ;;;
     emit ProcessTerminate) ;;;
  toc <- call (datetime_now rt) Now ;;
  report_summary tic toc.

End Model.

Arguments World : clear implicits.
Arguments Runtime : clear implicits.
Arguments ProxiedDicom : clear implicits.
Arguments Proxy : clear implicits.
Arguments DataDest : clear implicits.
Arguments ReportDir : clear implicits.
Arguments KeyHandler : clear implicits.
Arguments CSVArrayPMap : clear implicits.
Arguments ImageDir : clear implicits.
Arguments DcmFileHandler : clear implicits.
Arguments DcmDir : clear implicits.

(** ** dcmdir.py: the other methods *)

Section DcmDirMethods.

Context {Ext Ds : Type}.

(** What a caller passes as [item] to [DcmDir.get] and [DcmDir.delete]:
    a [str], a [Dixel], another object with an attribute [fn] (with
    what calling it gives), or anything else. *)
Inductive ItemArg : Type :=
| ArgStr (fn : string)
| ArgDixel (d : Dixel)
| ArgWithFn (fn : Outcome string)
| ArgOther.

(** The methods of [self.gateway] that [get], [delete] and [index_to]
    use; [gw_get] takes [get_pixels] when the caller passes it. *)
Record DcmFileReader : Type := {
  gw_get : string -> option bool -> @Act Ext Ds;
  read_file : string -> @Act Ext (list Byte.byte);
  gw_delete : string -> @Act Ext unit
}.

(** The registry [R] of [index_to]. *)
Record Redis : Type := {
  register : Dixel -> string -> @Act Ext unit
}.

Definition set_file (f : option (list Byte.byte)) (d : Dixel) : Dixel :=
  {| tags := tags d; meta := meta d; report := report d; file := f |}.

(** A call on a collaborator for which the trace has no event. *)
Definition quiet {A} (a : @Act Ext A) : M Ext A :=
  fun e => match a e with (r, e') => (r, e', []) end.

(** The file name of [item], lines 42-47 and 64-69. *)
Definition resolve_fn (rt : Runtime Ext) (item : ItemArg) : M Ext string :=
  match item with
  | ArgStr fn => ret fn
  | ArgDixel d => ret (Dixel_fn rt d)
  | ArgWithFn fn => lift fn
  | ArgOther => raise ValueError
  end.

(** [DcmDir.get], lines 39-58; [from_pydicom] is [Dixel.from_pydicom]. *)
Definition DcmDir_get (rt : Runtime Ext) (from_pydicom : Ds -> string -> Outcome Dixel)
    (self : DcmDir Ext) (reader : DcmFileReader) (item : ItemArg)
    (get_pixels get_file : bool) : M Ext Dixel :=
  emit (Log DEBUG (MsgText "EP GET")) ;;;
  fn <- resolve_fn rt item ;;
  present <- DcmDir_exists self (FnStr fn) ;;
  if negb present then raise FileNotFoundError
  else
    ds <- quiet (gw_get reader fn (Some get_pixels)) ;;
    result <- lift (from_pydicom ds fn) ;;
    if get_file then
      data <- quiet (read_file reader fn) ;;
      ret (set_file (Some data) result)
    else ret result.

(** [DcmDir.delete], lines 61-70. *)
Definition DcmDir_delete (rt : Runtime Ext) (self : DcmDir Ext)
    (reader : DcmFileReader) (item : ItemArg) : M Ext unit :=
  emit (Log DEBUG (MsgText "EP DELETE")) ;;;
  fn <- resolve_fn rt item ;;
  quiet (gw_delete reader fn).

(** [DcmDir.update], lines 32-37.  Line 37 passes [Dixel.file], the
    attribute of the class, not [item.file]; [class_file] is what
    evaluating it gives. *)
Definition DcmDir_update (class_file : Outcome (list Byte.byte)) (self : DcmDir Ext)
    (fn : string) (item : Dixel) : M Ext unit :=
  emit (Log DEBUG (MsgText "EP UPDATE")) ;;;
  if negb (file_truthy (file item)) then raise ValueError
  else
    data <- lift class_file ;;
    gcall (write_file (gateway self) fn data) (WriteFile fn data).

(** The prefix of lines 85, 98 and 103: the first four characters of the
    hexadecimal MD5 digest of the encoded path, and a dash.
    [str_encode] is [str.encode], which raises on a path that the codec
    cannot encode, and [md5_hexdigest] is [hashlib.md5(...).hexdigest()]. *)
Definition index_prefix (str_encode : string -> string -> Outcome (list Byte.byte))
    (md5_hexdigest : list Byte.byte -> Outcome string) (self : DcmDir Ext)
    : Outcome string :=
  match str_encode (path self) "UTF-*" with
  | Ok data =>
      match md5_hexdigest data with
      | Ok digest => Ok (String.substring 0%nat 4%nat digest +:+ "-")
      | Raise ex => Raise ex
      end
  | Raise ex => Raise ex
  end.

(** The body of the inner loop of [index_to], lines 89-95: the bare
    [except] catches whatever the three calls raise. *)
Definition index_file (from_pydicom : Ds -> string -> Outcome Dixel)
    (reader : DcmFileReader) (R : Redis) (prefix fn : string) : M Ext unit :=
  try_except
    (ds <- quiet (gw_get reader fn None) ;;
     d <- lift (from_pydicom ds fn) ;;
     quiet (register R d prefix))
    (fun _ => true)
    (fun _ => ret tt).

Fixpoint index_files (from_pydicom : Ds -> string -> Outcome Dixel)
    (reader : DcmFileReader) (R : Redis) (prefix : string) (fns : list string)
    : M Ext unit :=
  match fns with
  | [] => ret tt
  | fn :: rest =>
      index_file from_pydicom reader R prefix fn ;;;
      index_files from_pydicom reader R prefix rest
  end.

Fixpoint index_dirs (from_pydicom : Ds -> string -> Outcome Dixel)
    (reader : DcmFileReader) (R : Redis) (prefix : string)
    (walk : list (string * list string * list string)) : M Ext unit :=
  match walk with
  | [] => ret tt
  | (_, _, fns) :: rest =>
      index_files from_pydicom reader R prefix fns ;;;
      index_dirs from_pydicom reader R prefix rest
  end.

(** [DcmDir.index_to], lines 82-95; [os_walk] is
    [os.walk(self.path, topdown=False)], read to its end. *)
Definition DcmDir_index_to (str_encode : string -> string -> Outcome (list Byte.byte))
    (md5_hexdigest : list Byte.byte -> Outcome string)
    (os_walk : string -> @Act Ext (list (string * list string * list string)))
    (from_pydicom : Ds -> string -> Outcome Dixel)
    (self : DcmDir Ext) (reader : DcmFileReader) (R : Redis) : M Ext unit :=
  prefix <- lift (index_prefix str_encode md5_hexdigest self) ;;
  walk <- quiet (os_walk (path self)) ;;
  index_dirs from_pydicom reader R prefix walk.

End DcmDirMethods.

Arguments ItemArg : clear implicits.
Arguments DcmFileReader : clear implicits.
Arguments Redis : clear implicits.

(** ** dgetall.py *)

Section Dgetall.

Context {Ext : Type}.

(** The [source] argument of the command, whatever endpoint the
    validation callback made of it: whether it is a [DcmDir], its
    [path] attribute, and its [get] called with a name and the keyword
    [file]. *)
Record Endpoint : Type := {
  ep_is_DcmDir : bool;
  ep_path : Outcome string;
  ep_get : string -> bool -> @Act Ext Dixel
}.

(** The state the command works on: [ctx.obj.get("items")], the
    external state, and the lines echoed so far. *)
Record Cli : Type := {
  ctx_items : option (list Dixel);
  cli_ext : Ext;
  echoed : list string
}.

(** [os.path.join(root, files)] with [files] the list of file names of
    one [os.walk] step: [join] takes [str], [bytes] or path-like
    components and raises [TypeError] on a list. *)
Definition os_path_join_list (root : string) (files : list string) : Outcome string :=
  Raise TypeError.

(** Lines 21-23. *)
Fixpoint collect_items (walk : list (string * list string * list string))
    : Outcome (list string) :=
  match walk with
  | [] => Ok []
  | (root, _, files) :: rest =>
      match os_path_join_list root files with
      | Raise e => Raise e
      | Ok item =>
          match collect_items rest with
          | Raise e => Raise e
          | Ok items => Ok (item :: items)
          end
      end
  end.

(** Lines 25-27. *)
Fixpoint get_items (source : Endpoint) (binary : bool) (items : list string)
    (st : Cli) : Outcome unit * Cli :=
  match items with
  | [] => (Ok tt, st)
  | item :: rest =>
      match ep_get source item binary (cli_ext st) with
      | (Raise e, e') =>
          (Raise e, {| ctx_items := ctx_items st; cli_ext := e'; echoed := echoed st |})
      | (Ok d, e') =>
          get_items source binary rest
            {| ctx_items := Some (default [] (ctx_items st) ++ [d]);
               cli_ext := e'; echoed := echoed st |}
      end
  end.

(** [cli], lines 11-27. *)
Definition dgetall_cli
    (os_walk : string -> @Act Ext (list (string * list string * list string)))
    (source : Endpoint) (binary : bool) (st : Cli) : Outcome unit * Cli :=
  let st1 :=
    {| ctx_items := ctx_items st; cli_ext := cli_ext st;
       echoed := echoed st ++ ["Get All Items from DcmDir"] |} in
  let st2 :=
    {| ctx_items := match ctx_items st1 with
                    | Some (d :: l) => Some (d :: l)
                    | _ => Some []
                    end;
       cli_ext := cli_ext st1; echoed := echoed st1 |} in
  let st3 :=
    if ep_is_DcmDir source then st2
    else {| ctx_items := ctx_items st2; cli_ext := cli_ext st2;
            echoed := echoed st2 ++ ["Wrong endpoint type"] |} in
  match ep_path source with
  | Raise e => (Raise e, st3)
  | Ok p =>
      match os_walk p (cli_ext st3) with
      | (Raise e, e') =>
          (Raise e, {| ctx_items := ctx_items st3; cli_ext := e'; echoed := echoed st3 |})
      | (Ok walk, e') =>
          let st4 := {| ctx_items := ctx_items st3; cli_ext := e';
                        echoed := echoed st3 |} in
          match collect_items walk with
          | Raise e => (Raise e, st4)
          | Ok items => get_items source binary items st4
          end
      end
  end.

End Dgetall.

Arguments Endpoint : clear implicits.
Arguments Cli : clear implicits.

(** ** Observations on states and event lists *)

(** One counter went up by one and the other two kept their value. *)
Definition exactly_one_incremented {Ext} (w w' : World Ext) : Prop :=
  (handled w' = handled w + 1 /\ skipped w' = skipped w /\ failed w' = failed w) \/
  (handled w' = handled w /\ skipped w' = skipped w + 1 /\ failed w' = failed w) \/
  (handled w' = handled w /\ skipped w' = skipped w /\ failed w' = failed w + 1).

(** The same with the stored value, i.e. up to the width of a C int. *)
Definition exactly_one_stored {Ext} (w w' : World Ext) : Prop :=
  (handled w' = c_int (handled w + 1) /\ skipped w' = skipped w /\ failed w' = failed w) \/
  (handled w' = handled w /\ skipped w' = c_int (skipped w + 1) /\ failed w' = failed w) \/
  (handled w' = handled w /\ skipped w' = skipped w /\ failed w' = c_int (failed w + 1)).

Definition same_counters {Ext} (w w' : World Ext) : Prop :=
  handled w' = handled w /\ skipped w' = skipped w /\ failed w' = failed w.

(** A counter that can still take one more increment. *)
Definition below_max (z : Z) : Prop := INT_MIN <= z < INT_MAX.

(** Events of the stages before the image stage. *)
Definition is_prefix_event (e : Event) : bool :=
  match e with
  | Log _ _ | KeyPut _ _ | ReportPut _ _ => true
  | _ => false
  end.

(** Calls on the remote source and writes to the destination. *)
Definition is_fetch_or_store (e : Event) : bool :=
  match e with
  | SourceFind _ _ _ | ProxyGet _ _ _ | ProxyDelete _ _ | DestPut _ _ => true
  | _ => false
  end.

Definition is_store_or_delete (e : Event) : bool :=
  match e with
  | ProxyDelete _ _ | DestPut _ _ => true
  | _ => false
  end.

Definition is_anonymize (e : Event) : bool :=
  match e with ProxyAnonymize _ _ _ => true | _ => false end.

Definition is_write (e : Event) : bool :=
  match e with WriteFile _ _ _ => true | _ => false end.

Definition is_handler_event (e : Event) : bool :=
  match e with
  | Now _ | ProcessStart | ProcessTerminate | Sleep _ => false
  | _ => true
  end.

Definition is_after_resolution (e : Event) : bool :=
  match e with
  | ProxyExists _ _ | ProxyAnonymize _ _ _ | ProxyGet _ _ _ | DestPut _ _
  | ProxyDelete _ _ => true
  | _ => false
  end.

(** The stages before the image stage leave counters and heap alone. *)
Definition frame {Ext} (w w1 : World Ext) : Prop :=
  same_counters w w1 /\ heap w1 = heap w.

(** The tags and administrative fields key extraction reads. *)
Definition has_key_fields (d : Dixel) : Prop :=
  is_Some (tags d !! "AccessionNumber") /\ is_Some (tags d !! "Modality") /\
  is_Some (meta d !! "BodyParts") /\ is_Some (meta d !! "CPTCodes") /\
  is_Some (meta d !! "PatientAge") /\ is_Some (tags d !! "PatientSex") /\
  is_Some (meta d !! "PatientStatus").

(** ** Further observations *)

Definition is_print (e : Event) : bool :=
  match e with Print _ => true | _ => false end.

(** Calls of the stages after the staged-at-source check. *)
Definition is_after_staging (e : Event) : bool :=
  match e with
  | ProxyAnonymize _ _ _ | ProxyGet _ _ _ | DestPut _ _ | ProxyDelete _ _ => true
  | _ => false
  end.

Definition is_key_or_report (e : Event) : bool :=
  match e with KeyPut _ _ | ReportPut _ _ => true | _ => false end.

(** The progress line for the counters of a state. *)
Definition progress_line {Ext} (w : World Ext) : Event :=
  Print (Progress (handled w) (skipped w) (failed w)).

Definition total {Ext} (w : World Ext) : Z := handled w + skipped w + failed w.

(** A counter that can take [n] more increments. *)
Definition room_for (n : nat) (z : Z) : Prop := INT_MIN <= z /\ z + Z.of_nat n <= INT_MAX.

Definition is_delete (e : Event) : bool :=
  match e with ProxyDelete _ _ => true | _ => false end.

(** The stage a call belongs to; logging and printing have none. *)
Definition call_stage (e : Event) : option nat :=
  match e with
  | KeyPut _ _ => Some 0%nat
  | ReportPut _ _ => Some 1%nat
  | DestExists _ _ => Some 2%nat
  | FactoryCopy _ => Some 3%nat
  | SourceFind _ _ _ => Some 4%nat
  | ProxyExists _ _ => Some 5%nat
  | ProxyAnonymize _ _ _ => Some 6%nat
  | ProxyGet _ _ _ => Some 7%nat
  | DestPut _ _ => Some 8%nat
  | ProxyDelete _ _ => Some 9%nat
  | _ => None
  end.

(** [l] is strictly increasing and starts at [lo] or above. *)
Fixpoint increasing_from (lo : nat) (l : list nat) : bool :=
  match l with
  | [] => true
  | k :: rest => (lo <=? k)%nat && increasing_from (S k) rest
  end.

(** ** Concrete collaborators for the scenarios *)

Module Scenario.

(** The external state: the local file store, by file name. *)
Definition Store : Type := gmap string (list Byte.byte).

Definition fn (d : Dixel) : string :=
  default "" (tags d !! "AccessionNumber") +:+ ".dcm".

Definition arg_name (a : FnArg) : string :=
  match a with FnStr s => s | FnItem d => fn d end.

Definition gateway : DcmFileHandler Store :=
  {| write_file := fun name data s => (Ok tt, <[name := data]> s);
     gw_exists := fun a s =>
       (Ok (match s !! arg_name a with Some _ => true | None => false end), s) |}.

(** A remote source that answers from a script. *)
Definition scripted_proxy (staged : bool) (anon got : Outcome Dixel) : Proxy Store :=
  {| proxy_exists := fun _ s => (Ok staged, s);
     proxy_anonymize := fun _ _ s => (anon, s);
     proxy_get := fun _ _ s => (got, s);
     proxy_delete := fun _ s => (Ok tt, s) |}.

Definition scripted_source (found : list (gmap string string)) (staged : bool)
    (anon got : Outcome Dixel) : ProxiedDicom Store :=
  {| find := fun _ _ s => (Ok found, s);
     proxy := scripted_proxy staged anon got |}.

(** A key handler; like any object without [__bool__] and [__len__] it
    is truthy. *)
Definition key_handler : KeyHandler Store :=
  {| kh_truthy := true;
     kh_put := fun _ s => (Ok tt, s) |}.

Definition key_map : CSVArrayPMap Store :=
  {| km_self := key_handler; km_queue := key_handler;
     km_run := fun s => (Ok tt, s) |}.

Definition image_dir : ImageDir Store :=
  {| im_exists := fun d s =>
       (Ok (match s !! fn d with Some _ => true | None => false end), s);
     im_put := fun d s => (Ok tt, <[fn d := file_bytes (file d)]> s) |}.

Definition rt : Runtime Store :=
  {| Factory_copy := fun src s => (Ok src, s);
     datetime_now := fun s => (Ok 0, s);
     ImageDir_new := fun _ _ _ _ => image_dir;
     DcmFileHandler_new := fun _ _ _ => gateway;
     ReportDir_new := fun _ _ _ _ =>
       {| rd_truthy := true; rd_put := fun _ s => (Ok tt, s) |};
     CSVArrayPMap_new := fun _ _ _ => key_map;
     Dixel_fn := fn |}.

Definition dcm_dir : DcmDir Store := DcmDir_new rt "/data/images" 2 2.

Definition raw_dest : DataDest Store := DcmDir_as_dest rt dcm_dir.

Definition im_dest : DataDest Store := ImageDir_as_dest image_dir.

(** A study with every field key extraction reads. *)
Definition study (acc : string) (rep : option Report)
    (payload : option (list Byte.byte)) : Dixel :=
  {| tags := list_to_map [("AccessionNumber", acc); ("Modality", "CT");
                          ("PatientSex", "F")];
     meta := list_to_map [("BodyParts", "CHEST"); ("CPTCodes", "71250");
                          ("PatientAge", "61"); ("PatientStatus", "IP")];
     report := rep;
     file := payload |}.

Definition rated : option Report := Some {| radcat := Ok "3" |}.
Definition unrated : option Report := Some {| radcat := Raise ValueError |}.

Definition payload : list Byte.byte := [Byte.x44; Byte.x49; Byte.x43; Byte.x4d].

Definition remote_tags : gmap string string :=
  list_to_map [("AccessionNumber", "ACC003"); ("StudyInstanceUID", "1.2.840.1");
               ("PatientName", "DOE^JANE")].

(** A heap holding the given objects at references 0, 1, ... *)
Definition objects (l : list Dixel) : nat -> Dixel :=
  fun i => nth i l (study "" None None).

Definition world (h s f : Z) (l : list Dixel) (store : Store) : World Store :=
  {| handled := h; skipped := s; failed := f; heap := objects l; ext := store |}.

Definition counters (w : World Store) : Z * Z * Z :=
  (handled w, skipped w, failed w).

(** Scenario D: five studies, all already at the destination. *)
Definition five : list Dixel :=
  [study "ACC001" rated None; study "ACC002" rated None; study "ACC003" rated None;
   study "ACC004" rated None; study "ACC005" rated None].

Definition five_stored : Store :=
  list_to_map [("ACC001.dcm", payload); ("ACC002.dcm", payload);
               ("ACC003.dcm", payload); ("ACC004.dcm", payload);
               ("ACC005.dcm", payload)].

Definition anonymized : Dixel := study "ANON-7F3A" rated None.

Definition fetched : Dixel := study "ACC003" rated (Some payload).

(** Scenario C: metadata resolves, the proxy has staged the study and
    the payload is fetched. *)
Definition source_c : ProxiedDicom Store :=
  scripted_source [remote_tags] true (Ok anonymized) (Ok fetched).

Definition w_c : World Store := world 0 0 0 [study "ACC003" rated None] ∅.

Definition run_c := handle_item rt 0 source_c raw_dest None false None w_c.

(** The same with anonymization requested. *)
Definition run_anon := handle_item rt 0 source_c raw_dest None true None w_c.

(** Scenario A: the destination already holds the study. *)
Definition stored_a : Store := {[ "ACC001.dcm" := payload ]}.

Definition w_a : World Store := world 0 0 0 [study "ACC001" rated None] stored_a.

Definition run_a := handle_item rt 0 source_c raw_dest None true None w_a.

(** Scenario B: the remote source finds nothing. *)
Definition source_b : ProxiedDicom Store :=
  scripted_source [] true (Ok anonymized) (Ok fetched).

Definition w_b : World Store := world 0 0 0 [study "ACC002" rated None] ∅.

Definition run_b := handle_item rt 0 source_b raw_dest None true None w_b.

(** Metadata resolves but the proxy has not staged the study. *)
Definition source_unstaged : ProxiedDicom Store :=
  scripted_source [remote_tags] false (Ok anonymized) (Ok fetched).

Definition run_unstaged :=
  handle_item rt 0 source_unstaged raw_dest None true None w_c.

(** The payload is not found. *)
Definition source_lost : ProxiedDicom Store :=
  scripted_source [remote_tags] true (Ok anonymized) (Raise FileNotFoundError).

Definition run_lost := handle_item rt 0 source_lost raw_dest None false None w_c.

(** A study whose report has no category. *)
Definition w_unrated : World Store :=
  world 0 0 0 [study "ACC001" unrated None] stored_a.

(** Counters at the largest value a C int holds. *)
Definition w_skipped_max : World Store :=
  world 0 INT_MAX 0 [study "ACC001" rated None] stored_a.

Definition run_skipped_max :=
  handle_item rt 0 source_c raw_dest None true None w_skipped_max.

Definition w_failed_max : World Store :=
  world 0 0 INT_MAX [study "ACC002" rated None] ∅.

Definition run_b_max :=
  handle_item rt 0 source_b raw_dest None true None w_failed_max.

Definition w_lost_max : World Store :=
  world 0 0 INT_MAX [study "ACC003" rated None] ∅.

Definition run_lost_max :=
  handle_item rt 0 source_lost raw_dest None false None w_lost_max.

(** Studies on which key extraction stops. *)
Definition w_no_report : World Store :=
  world 0 0 0 [study "ACC001" None None] stored_a.

Definition run_no_report :=
  handle_item rt 0 source_c raw_dest None true None w_no_report.

Definition w_odd_report : World Store :=
  world 0 0 0 [study "ACC001" (Some {| radcat := Raise (OtherError 7) |}) None]
    stored_a.

Definition run_odd_report :=
  handle_item rt 0 source_c raw_dest None true None w_odd_report.

Definition no_body_part : Dixel :=
  {| tags := tags (study "ACC001" rated None);
     meta := delete "BodyParts" (meta (study "ACC001" rated None));
     report := rated; file := None |}.

Definition run_no_body_part :=
  handle_item rt 0 source_c raw_dest None true None
    (world 0 0 0 [no_body_part] stored_a).

(** The item of scenario C once the remote tags are merged. *)
Definition merged : Dixel :=
  set_tags (remote_tags ∪ tags (study "ACC003" rated None))
           (study "ACC003" rated None).

(** Anonymization requested with an image destination. *)
Definition run_im := handle_item rt 0 source_c im_dest None true None w_c.

Definition put_fetched := DcmDir_put rt dcm_dir fetched ∅.

Definition put_empty := DcmDir_put rt dcm_dir (study "ACC003" rated None) ∅.

(** Scenario D, pooled. *)
Definition w_d : World Store := world 0 0 0 five five_stored.

Definition run_d_pooled :=
  run rt (Collector_new 2) [0; 1; 2; 3; 4]%nat source_c "/data" true true false
    (1 # 10) w_d.

(** A fetch that fails in another way than not finding the payload. *)
Definition source_broken : ProxiedDicom Store :=
  scripted_source [remote_tags] true (Ok anonymized) (Raise (OtherError 3)).

Definition run_broken := handle_item rt 0 source_broken raw_dest None false None w_c.

(** A fetch that returns a record without payload. *)
Definition source_hollow : ProxiedDicom Store :=
  scripted_source [remote_tags] true (Ok anonymized) (Ok (study "ACC003" rated None)).

Definition run_hollow := handle_item rt 0 source_hollow raw_dest None false None w_c.

(** A report destination. *)
Definition report_dir : ReportDir Store :=
  {| rd_truthy := true; rd_put := fun _ s => (Ok tt, s) |}.

(** Scenario A with a report destination, and with a key handler too. *)
Definition run_a_reported :=
  handle_item rt 0 source_c raw_dest (Some report_dir) true None w_a.

Definition run_a_keyed :=
  handle_item rt 0 source_c raw_dest (Some report_dir) true (Some key_handler) w_a.

(** A key map that tests false, and the runtime that builds it. *)
Definition falsy_handler : KeyHandler Store :=
  {| kh_truthy := false;
     kh_put := fun _ s => (Ok tt, s) |}.

Definition rt_unkeyed : Runtime Store :=
  {| Factory_copy := Factory_copy rt;
     datetime_now := datetime_now rt;
     ImageDir_new := ImageDir_new rt;
     DcmFileHandler_new := DcmFileHandler_new rt;
     ReportDir_new := ReportDir_new rt;
     CSVArrayPMap_new := fun _ _ _ =>
       {| km_self := falsy_handler; km_queue := falsy_handler;
          km_run := fun s => (Ok tt, s) |};
     Dixel_fn := Dixel_fn rt |}.

(** Scenario D, serial: the loop alone and the whole run. *)
Definition loop_d :=
  serial_loop rt [0; 1; 2; 3; 4]%nat source_c raw_dest None true None w_d.

Definition run_d_serial :=
  run rt_unkeyed (Collector_new 0) [0; 1; 2; 3; 4]%nat source_c "/data" true true false
    (1 # 10) w_d.

(** Scenario C through [run], saving as images. *)
Definition run_c_images :=
  run rt_unkeyed (Collector_new 0) [0]%nat source_c "/data" true true true
    (1 # 10) w_c.

(** The reading side of the gateway; a data set is the name it was read
    from. *)
Definition reader : DcmFileReader Store string :=
  {| gw_get := fun name _ s =>
       (match s !! name with Some _ => Ok name | None => Raise FileNotFoundError end, s);
     read_file := fun name s =>
       (match s !! name with Some b => Ok b | None => Raise FileNotFoundError end, s);
     gw_delete := fun name s => (Ok tt, delete name s) |}.

Definition from_pydicom (ds name : string) : Outcome Dixel :=
  Ok (study ds rated None).

Definition get_fetched :=
  DcmDir_get rt from_pydicom dcm_dir reader (ArgDixel fetched) false true
    put_fetched.1.2.

Definition update_fetched :=
  DcmDir_update (Raise AttributeError) dcm_dir "other.dcm" fetched ∅.

Definition delete_fetched :=
  DcmDir_delete rt dcm_dir reader (ArgDixel fetched) put_fetched.1.2.

Definition get_deleted :=
  DcmDir_get rt from_pydicom dcm_dir reader (ArgDixel fetched) false true
    delete_fetched.1.2.

End Scenario.

(** * Properties *)

Section Properties.

Context {Ext : Type}.
Implicit Types (w : World Ext) (rt : Runtime Ext) (evs : list Event).

(** ** Counters *)

Lemma c_int_succ z : below_max z -> c_int (z + 1) = z + 1.
Proof.
  unfold below_max, c_int, INT_MIN, INT_MAX. intros Hz.
  rewrite Z.mod_small by lia. lia.
Qed.

Lemma c_int_wraps : c_int (INT_MAX + 1) = INT_MIN.
Proof. reflexivity. Qed.

Lemma stored_incremented w w' :
  exactly_one_stored w w' ->
  below_max (handled w) -> below_max (skipped w) -> below_max (failed w) ->
  exactly_one_incremented w w'.
Proof.
  unfold exactly_one_stored, exactly_one_incremented.
  intros H Hh Hs Hf.
  rewrite !c_int_succ in H by assumption. exact H.
Qed.

(** ** Events of the stages *)

Lemma prefix_only ev1 e :
  forallb is_prefix_event ev1 = true -> In e ev1 -> is_prefix_event e = true.
Proof. intros H Hin. rewrite forallb_forall in H. by apply H. Qed.

Lemma in_stage ev1 ev2 e :
  forallb is_prefix_event ev1 = true -> is_prefix_event e = false ->
  In e (ev1 ++ ev2) -> In e ev2.
Proof.
  intros H He Hin. apply in_app_or in Hin as [Hin|Hin]; [|done].
  apply (prefix_only _ _ H) in Hin. congruence.
Qed.

Lemma stage_forall (P : Event -> bool) ev1 ev2 :
  (forall e, is_prefix_event e = true -> P e = false) ->
  forallb is_prefix_event ev1 = true ->
  (forall e, In e ev2 -> P e = false) ->
  forall e, In e (ev1 ++ ev2) -> P e = false.
Proof.
  intros HP H1 H2 e Hin. apply in_app_or in Hin as [Hin|Hin]; [|by apply H2].
  apply HP. by eapply prefix_only.
Qed.

(** ** The stages before the image stage *)

Lemma frame_refl w : frame w w.
Proof. by repeat split. Qed.

Lemma frame_set_ext w e : frame w (set_ext e w).
Proof. by repeat split. Qed.

Lemma frame_trans w w1 w2 : frame w w1 -> frame w1 w2 -> frame w w2.
Proof.
  intros [(?&?&?) ?] [(?&?&?) ?]. repeat split; congruence.
Qed.

Ltac unfold_monad :=
  cbv [bind ret raise call emit lift try_except deref tags_update incr_handled
       incr_skipped incr_failed print_progress getitem forget report_radcat] in *.

Ltac red_world :=
  cbn [app negb andb is_FileNotFoundError is_ValueError set_ext set_heap
       handled skipped failed heap ext fst snd] in *.

Ltac explore := repeat (case_match; simplify_eq; red_world).

Lemma key_extraction_frame d w o w1 ev :
  key_extraction d w = (o, w1, ev) ->
  w1 = w /\ forallb is_prefix_event ev = true.
Proof.
  unfold key_extraction. unfold_monad. intros H. explore; done.
Qed.

Lemma key_emission_frame kh k kd w o w1 ev :
  key_emission kh k kd w = (o, w1, ev) ->
  frame w w1 /\ forallb is_prefix_event ev = true.
Proof.
  unfold key_emission. unfold_monad. intros H.
  explore; split; try done; try apply frame_set_ext; apply frame_refl.
Qed.

Lemma report_persist_frame rd d w o w1 ev :
  report_persist rd d w = (o, w1, ev) ->
  frame w w1 /\ forallb is_prefix_event ev = true.
Proof.
  unfold report_persist. unfold_monad. intros H.
  explore; split; try done; try apply frame_set_ext; apply frame_refl.
Qed.

(** A run of [handle_item] is a run of the stages before the image
    stage, which only log and write keys and reports, followed, unless
    one of them raised, by a run of the image stage. *)
Lemma handle_item_stages rt item source dd rd an kh w o w' evs :
  handle_item rt item source dd rd an kh w = (o, w', evs) ->
  exists w1 ev1 ev2,
    frame w w1 /\ forallb is_prefix_event ev1 = true /\ evs = ev1 ++ ev2 /\
    ((exists e, o = Raise e /\ w' = w1 /\ ev2 = []) \/
     images rt item source dd an w1 = (o, w', ev2)).
Proof.
  unfold handle_item. intros H.
  cbv [bind deref] in H.
  destruct (key_extraction (heap w item) w) as [[o1 w1] ev1] eqn:E1.
  apply key_extraction_frame in E1 as [E1 P1].
  destruct o1 as [key|e].
  2:{ injection H as <- <- <-. exists w1, ev1, []. rewrite app_nil_r, E1.
      split; [apply frame_refl|]. eauto 10. }
  destruct (key_emission kh key.1 key.2 w1) as [[o2 w2] ev2] eqn:E2.
  apply key_emission_frame in E2 as [F2 P2]. rewrite E1 in F2.
  destruct o2 as [[]|e].
  2:{ injection H as <- <- <-. exists w2, (ev1 ++ ev2), [].
      rewrite app_nil_r, forallb_app, P1, P2. eauto 10. }
  destruct (report_persist rd (heap w item) w2) as [[o3 w3] ev3] eqn:E3.
  apply report_persist_frame in E3 as [F3 P3].
  pose proof (frame_trans _ _ _ F2 F3) as F.
  destruct o3 as [[]|e].
  2:{ injection H as <- <- <-. exists w3, (ev1 ++ ev2 ++ ev3), [].
      rewrite app_nil_r, !forallb_app, P1, P2, P3. eauto 10. }
  destruct (images rt item source dd an w3) as [[o4 w4] ev4] eqn:E4.
  injection H as <- <- <-.
  exists w3, (ev1 ++ ev2 ++ ev3), ev4. rewrite !forallb_app, P1, P2, P3.
  split; [done|]. split; [done|]. split; [by rewrite <- !app_assoc|].
  by right.
Qed.

(** ** The image stage, path by path *)

Lemma mkq_inv d w o w1 ev :
  mkq d w = (o, w1, ev) ->
  w1 = w /\ ev = [] /\
  match o with
  | Ok q => exists an, tags d !! "AccessionNumber" = Some an /\ q = accession_query an
  | Raise e => e = KeyError "AccessionNumber"
  end.
Proof.
  unfold mkq. unfold_monad. intros H.
  destruct (tags d !! "AccessionNumber") as [an|] eqn:E; simplify_eq/=; eauto.
Qed.

Ltac explore_images :=
  repeat first
    [ match goal with
      | E : mkq _ _ = _ |- _ => apply mkq_inv in E; destruct E as (-> & -> & E)
      end
    | case_match; simplify_eq; red_world ].

Ltac run_images H :=
  unfold images in H; unfold_monad; explore_images.

Ltac in_events :=
  repeat match goal with
    | H : In _ [] |- _ => destruct H
    | H : In _ (_ :: _) |- _ => destruct H as [H|H]; [try discriminate H; simplify_eq|]
    end.

Ltac destruct_ex :=
  repeat match goal with
    | H : exists _, _ |- _ => destruct H
    | H : _ /\ _ |- _ => destruct H
    end.

Ltac find_in := eexists; simpl; repeat first [left; reflexivity | right].

Lemma images_counts rt item source dd an w o w' evs :
  images rt item source dd an w = (o, w', evs) ->
  match o with
  | Ok _ => exactly_one_stored w w'
  | Raise _ => same_counters w w'
  end.
Proof.
  intros H. run_images H; cbv [exactly_one_stored same_counters]; simpl; tauto.
Qed.

Lemma images_skip rt item source dd an w o w' evs d :
  images rt item source dd an w = (o, w', evs) ->
  In (DestExists d (Ok true)) evs ->
  o = Ok tt /\ (forall e, In e evs -> is_fetch_or_store e = false) /\
  handled w' = handled w /\ failed w' = failed w /\
  skipped w' = c_int (skipped w + 1) /\ heap w' = heap w.
Proof.
  intros H Hin. run_images H; in_events.
  repeat split; try done. intros ev He. in_events; done.
Qed.

Lemma images_find rt item source dd an w o w' evs q b r :
  images rt item source dd an w = (o, w', evs) ->
  In (SourceFind q b (Ok r)) evs ->
  b = true /\
  (exists acc, tags (heap w item) !! "AccessionNumber" = Some acc /\
               q = accession_query acc) /\
  match r with
  | [] =>
      o = Ok tt /\ handled w' = handled w /\ skipped w' = skipped w /\
      failed w' = c_int (failed w + 1) /\ heap w' = heap w /\
      (forall e, In e evs -> is_after_resolution e = false)
  | r0 :: _ =>
      tags (heap w' item) = r0 ∪ tags (heap w item) /\
      exists res,
        In (ProxyExists (set_tags (r0 ∪ tags (heap w item)) (heap w item)) res) evs
  end.
Proof.
  intros H Hin. run_images H; in_events.
  all: split; [done|]; split; [done|].
  all: try (repeat split; try done; intros ev He; in_events; done).
  all: rewrite fn_lookup_insert; split; [done|]; find_in.
Qed.

Lemma images_fetch rt item source dd an w o w' evs d v res :
  images rt item source dd an w = (o, w', evs) ->
  In (ProxyGet d v res) evs ->
  v = VFILE /\
  match res with
  | Ok _ => True
  | Raise e =>
      if is_FileNotFoundError e then
        o = Ok tt /\ handled w' = handled w /\ skipped w' = skipped w /\
        failed w' = c_int (failed w + 1) /\
        (forall e, In e evs -> is_store_or_delete e = false)
      else o = Raise e /\ same_counters w w'
  end.
Proof.
  intros H Hin. run_images H; in_events.
  all: split; [done|]; try done; try congruence.
  all: repeat split; try done; intros ev He; in_events; done.
Qed.

Lemma images_anonymize rt item source dd an w o w' evs d :
  images rt item source dd an w = (o, w', evs) ->
  In (ProxyExists d (Ok true)) evs ->
  ((exists res, In (ProxyAnonymize d true res) evs) <->
   an = true /\ is_ImageDir dd = false) /\
  (forall d' rm res, In (ProxyAnonymize d' rm res) evs -> d' = d /\ rm = true) /\
  (forall d2, In (ProxyAnonymize d true (Ok d2)) evs ->
              exists res, In (ProxyGet d2 VFILE res) evs) /\
  (an && negb (is_ImageDir dd) = false ->
   exists res, In (ProxyGet d VFILE res) evs).
Proof.
  intros H Hin. run_images H; in_events.
  all: repeat match goal with
         | E : _ && negb _ = true |- _ =>
             apply andb_true_iff in E as [-> E]; apply negb_true_iff in E
         end.
  all: repeat split; intros; destruct_ex; in_events; simplify_eq; try done.
  all: try match goal with
       | E : _ && negb _ = false, Him : is_ImageDir _ = false |- _ =>
           rewrite Him in E; discriminate E
       end.
  all: find_in.
Qed.

Lemma images_merge rt item source dd an w o w' evs q b r0 rest :
  images rt item source dd an w = (o, w', evs) ->
  In (SourceFind q b (Ok (r0 :: rest))) evs ->
  tags (heap w' item) = r0 ∪ tags (heap w item) /\
  (forall d res, In (ProxyExists d res) evs -> tags d = r0 ∪ tags (heap w item)) /\
  (forall d res, In (ProxyExists d res) evs -> res = Ok false ->
     o = Ok tt /\ failed w' = c_int (failed w + 1)) /\
  (forall d v, In (ProxyGet d v (Raise FileNotFoundError)) evs ->
     o = Ok tt /\ failed w' = c_int (failed w + 1)).
Proof.
  intros H Hin. run_images H; in_events.
  all: rewrite ?fn_lookup_insert.
  all: repeat split; try done.
  all: try (intros; in_events; simplify_eq; try done; rewrite ?fn_lookup_insert; done).
Qed.

(** Splits a run of [handle_item] into its stages and discards the case
    in which an event [Hin] of the image stage would have been emitted
    by an earlier one. *)
Ltac stage_cases H Hin :=
  apply handle_item_stages in H
    as (w1 & ev1 & ev2 & [(Fh & Fs & Ff) Fheap] & P1 & -> & [(e0 & -> & -> & ->)|H]);
  (apply (in_stage _ _ _ P1) in Hin; [|reflexivity]);
  [destruct Hin|].

(** ** The claims about [handle_item] *)

(** C2 (as amended).  On every item on which [handle_item] returns,
    exactly one of [handled], [skipped], [failed] receives the result of
    [+= 1] and the other two keep their value; while the three counters
    are below the largest C int, that is an increase by exactly 1. *)
Theorem handle_item_counts_once rt item source dd rd an kh w w' evs :
  handle_item rt item source dd rd an kh w = (Ok tt, w', evs) ->
  exactly_one_stored w w' /\
  (below_max (handled w) -> below_max (skipped w) -> below_max (failed w) ->
   exactly_one_incremented w w').
Proof.
  intros H.
  assert (Hs : exactly_one_stored w w').
  { apply handle_item_stages in H
      as (w1 & ev1 & ev2 & [(Fh & Fs & Ff) Fheap] & P1 & -> & [(e0 & ? & _)|H]);
      [discriminate|].
    apply images_counts in H. unfold exactly_one_stored in *.
    rewrite Fh, Fs, Ff in H. exact H. }
  split; [exact Hs|]. by apply stored_incremented.
Qed.

Ltac missing_field k :=
  exists k; eexists; split; [reflexivity|]; split; [auto|];
  let ev := fresh "ev" in let Hev := fresh "Hev" in
  intros ev Hev; cbn [app] in Hev; in_events; reflexivity.

(** C3 (as amended).  For an item that has a report whose categorization
    raises [ValueError], and whose tags and administrative fields hold
    what key extraction reads, key extraction does not abort: it logs
    the error, takes the empty category for [radcat], and [handle_item]
    goes on with key emission, report persist and the image stage.
    Everything else that goes wrong in key extraction propagates out of
    [handle_item], which has then called nothing and changed nothing:
    an absent report ([AttributeError]), any other exception of the
    categorization, and a missing field ([KeyError] with its name). *)
Theorem key_extraction_recovers rt item source dd rd an kh w :
  (forall r,
     report (heap w item) = Some r ->
     radcat r = Raise ValueError ->
     has_key_fields (heap w item) ->
     exists key_id kd,
       key_extraction (heap w item) w =
         (Ok (key_id, kd), w, [Log ERROR (MsgException ValueError)]) /\
       tags (heap w item) !! "AccessionNumber" = Some key_id /\
       kd_radcat kd = "" /\
       handle_item rt item source dd rd an kh w =
         (emit (Log ERROR (MsgException ValueError)) ;;;
          key_emission kh key_id kd ;;;
          report_persist rd (heap w item) ;;;
          images rt item source dd an) w) /\
  (report (heap w item) = None ->
     handle_item rt item source dd rd an kh w = (Raise AttributeError, w, [])) /\
  (forall r e,
     report (heap w item) = Some r ->
     radcat r = Raise e -> e <> ValueError ->
     handle_item rt item source dd rd an kh w = (Raise e, w, [])) /\
  (forall r,
     report (heap w item) = Some r ->
     (forall e, radcat r = Raise e -> e = ValueError) ->
     ~ has_key_fields (heap w item) ->
     exists k evs,
       handle_item rt item source dd rd an kh w = (Raise (KeyError k), w, evs) /\
       (tags (heap w item) !! k = None \/ meta (heap w item) !! k = None) /\
       (forall ev, In ev evs -> ev = Log ERROR (MsgException ValueError))).
Proof.
  split; [|split; [|split]].
  - intros r Hr Hc ([k1 H1] & [k2 H2] & [k3 H3] & [k4 H4] & [k5 H5] & [k6 H6] & [k7 H7]).
    assert (Hk : key_extraction (heap w item) w =
      (Ok (k1, {| kd_modality := k2; kd_body_part := k3; kd_cpts := k4;
                  kd_age := k5; kd_sex := k6; kd_status := k7; kd_radcat := "" |}),
       w, [Log ERROR (MsgException ValueError)])).
    { unfold key_extraction. unfold_monad.
      rewrite Hr, Hc, H1, H2, H3, H4, H5, H6, H7. reflexivity. }
    eexists _, _. split; [exact Hk|]. split; [exact H1|]. split; [reflexivity|].
    unfold handle_item. cbv [bind deref emit]. rewrite Hk. cbn [fst snd app].
    repeat (case_match; simplify_eq); reflexivity.
  - intros Hr. unfold handle_item, key_extraction. unfold_monad.
    rewrite Hr. reflexivity.
  - intros r e Hr Hc He. unfold handle_item, key_extraction. unfold_monad.
    rewrite Hr, Hc. destruct e; try reflexivity. congruence.
  - intros r Hr Hc Hf.
    assert (Hcase : radcat r = Raise ValueError \/ exists c, radcat r = Ok c).
    { destruct (radcat r) as [c|e]; [by eauto|]. left. by rewrite (Hc e eq_refl). }
    unfold handle_item, key_extraction. unfold_monad. rewrite Hr.
    destruct Hcase as [-> | [c ->]]; cbn [is_ValueError app];
      (destruct (tags (heap w item) !! "AccessionNumber") as [k1|] eqn:H1;
         [|missing_field "AccessionNumber"]);
      (destruct (tags (heap w item) !! "Modality") as [k2|] eqn:H2;
         [|missing_field "Modality"]);
      (destruct (meta (heap w item) !! "BodyParts") as [k3|] eqn:H3;
         [|missing_field "BodyParts"]);
      (destruct (meta (heap w item) !! "CPTCodes") as [k4|] eqn:H4;
         [|missing_field "CPTCodes"]);
      (destruct (meta (heap w item) !! "PatientAge") as [k5|] eqn:H5;
         [|missing_field "PatientAge"]);
      (destruct (tags (heap w item) !! "PatientSex") as [k6|] eqn:H6;
         [|missing_field "PatientSex"]);
      (destruct (meta (heap w item) !! "PatientStatus") as [k7|] eqn:H7;
         [|missing_field "PatientStatus"]);
      exfalso; apply Hf; unfold has_key_fields;
      rewrite H1, H2, H3, H4, H5, H6, H7; repeat split; eauto.
Qed.

(** C4 (as amended).  When [handle_item] reaches the idempotency check
    and the destination answers that the item exists, it calls none of
    [source.find], [source.proxy.get], [source.proxy.delete],
    [data_dest.put], returns, leaves [handled] and [failed] unchanged
    and stores [skipped + 1] into [skipped]: an increase by exactly 1
    while [skipped] is below the largest C int. *)
Theorem handle_item_skips_existing rt item source dd rd an kh w o w' evs d :
  handle_item rt item source dd rd an kh w = (o, w', evs) ->
  In (DestExists d (Ok true)) evs ->
  o = Ok tt /\
  (forall e, In e evs -> is_fetch_or_store e = false) /\
  handled w' = handled w /\ failed w' = failed w /\
  skipped w' = c_int (skipped w + 1) /\
  (below_max (skipped w) -> skipped w' = skipped w + 1).
Proof.
  intros H Hin. stage_cases H Hin.
  apply images_skip with (d := d) in H as (-> & Hev & Hh & Hf & Hs & _); [|done].
  rewrite Fh in Hh. rewrite Ff in Hf. rewrite Fs in Hs.
  split; [done|]. split.
  { apply stage_forall; [by intros []|done|done]. }
  repeat split; try done. intros Hb. by rewrite Hs, c_int_succ.
Qed.

(** C5 (as amended).  When [handle_item] reaches metadata resolution,
    the query is the minimal accession-number query, sent with
    [retrieve=True].  If [source.find] returns the empty list the item
    ends there: [handle_item] returns, no later stage is entered, the
    item's tags are as before, [handled] and [skipped] are unchanged
    and [failed + 1] is stored into [failed] (an increase by exactly 1
    while [failed] is below the largest C int).  If it returns a
    non-empty list, the tags of the first result are merged into the
    item's tags and the staged-at-source check is made on the merged
    item. *)
Theorem handle_item_resolution rt item source dd rd an kh w o w' evs q b r :
  handle_item rt item source dd rd an kh w = (o, w', evs) ->
  In (SourceFind q b (Ok r)) evs ->
  b = true /\
  (exists acc, tags (heap w item) !! "AccessionNumber" = Some acc /\
               q = accession_query acc) /\
  match r with
  | [] =>
      o = Ok tt /\ handled w' = handled w /\ skipped w' = skipped w /\
      failed w' = c_int (failed w + 1) /\
      (below_max (failed w) -> failed w' = failed w + 1) /\
      tags (heap w' item) = tags (heap w item) /\
      (forall e, In e evs -> is_after_resolution e = false)
  | r0 :: _ =>
      tags (heap w' item) = r0 ∪ tags (heap w item) /\
      exists res,
        In (ProxyExists (set_tags (r0 ∪ tags (heap w item)) (heap w item)) res) evs
  end.
Proof.
  intros H Hin. stage_cases H Hin.
  apply images_find with (q := q) (b := b) (r := r) in H as (-> & Hq & Hr); [|done].
  rewrite Fheap in Hq. split; [done|]. split; [done|].
  destruct r as [|r0 rest].
  - destruct Hr as (-> & Hh & Hs & Hf & Hheap & Hev).
    rewrite Fh in Hh. rewrite Fs in Hs. rewrite Ff in Hf.
    repeat split; try done.
    + intros Hb. by rewrite Hf, c_int_succ.
    + by rewrite Hheap, Fheap.
    + apply stage_forall; [by intros []|done|done].
  - destruct Hr as (Ht & res & Hres). rewrite Fheap in Ht, Hres.
    split; [done|]. exists res. apply in_or_app. by right.
Qed.

(** C6 (as amended).  When [handle_item] reaches the payload fetch, it
    asks for the FILE view.  If the fetch raises [FileNotFoundError],
    [handle_item] returns without calling [data_dest.put] or
    [source.proxy.delete], [handled] and [skipped] are unchanged and
    [failed + 1] is stored into [failed] (an increase by exactly 1 while
    [failed] is below the largest C int).  Any other exception of the
    fetch leaves [handle_item] as it is, with the three counters
    unchanged. *)
Theorem handle_item_fetch_failure rt item source dd rd an kh w o w' evs d v res :
  handle_item rt item source dd rd an kh w = (o, w', evs) ->
  In (ProxyGet d v res) evs ->
  v = VFILE /\
  (res = Raise FileNotFoundError ->
   o = Ok tt /\ handled w' = handled w /\ skipped w' = skipped w /\
   failed w' = c_int (failed w + 1) /\
   (below_max (failed w) -> failed w' = failed w + 1) /\
   (forall e, In e evs -> is_store_or_delete e = false)) /\
  (forall e, res = Raise e -> e <> FileNotFoundError ->
   o = Raise e /\ same_counters w w').
Proof.
  intros H Hin. stage_cases H Hin.
  apply images_fetch with (d := d) (v := v) (res := res) in H as (-> & Hres); [|done].
  split; [done|]. split.
  - intros ->. cbn in Hres. destruct Hres as (-> & Hh & Hs & Hf & Hev).
    rewrite Fh in Hh. rewrite Fs in Hs. rewrite Ff in Hf.
    repeat split; try done.
    + intros Hb. by rewrite Hf, c_int_succ.
    + apply stage_forall; [by intros []|done|done].
  - intros e -> Hne. destruct e; try done; cbn in Hres.
    all: destruct Hres as (-> & Hh & Hs & Hf); split; [done|].
    all: unfold same_counters; rewrite <- Fh, <- Fs, <- Ff; done.
Qed.

(** C7.  When [handle_item] reaches the anonymization stage (the proxy
    has answered that the item is staged), [source.proxy.anonymize] is
    called, on the item and with [remove=True], if and only if the
    anonymize flag is true and the destination is not an [ImageDir];
    the payload is then fetched for the record it returned.  With the
    flag false or an [ImageDir] destination no anonymize call is made
    and the payload is fetched for the item itself. *)
Theorem handle_item_anonymizes_iff rt item source dd rd an kh w o w' evs d :
  handle_item rt item source dd rd an kh w = (o, w', evs) ->
  In (ProxyExists d (Ok true)) evs ->
  ((exists res, In (ProxyAnonymize d true res) evs) <->
   an = true /\ is_ImageDir dd = false) /\
  (forall d' rm res, In (ProxyAnonymize d' rm res) evs -> d' = d /\ rm = true) /\
  (forall d2, In (ProxyAnonymize d true (Ok d2)) evs ->
              exists res, In (ProxyGet d2 VFILE res) evs) /\
  (an && negb (is_ImageDir dd) = false ->
   (forall e, In e evs -> is_anonymize e = false) /\
   exists res, In (ProxyGet d VFILE res) evs).
Proof.
  intros H Hin. stage_cases H Hin.
  apply images_anonymize with (d := d) in H as (Hiff & Hall & Hget & Hnone); [|done].
  split; [|split; [|split]].
  - rewrite <- Hiff. split; intros [res Hres]; exists res.
    + by apply (in_stage _ _ _ P1) in Hres.
    + apply in_or_app. by right.
  - intros d' rm res Hres. apply (in_stage _ _ _ P1) in Hres; [|done]. eauto.
  - intros d2 Hres. apply (in_stage _ _ _ P1) in Hres; [|done].
    destruct (Hget _ Hres) as [res Hg]. exists res. apply in_or_app. by right.
  - intros Hoff. split.
    + apply stage_forall; [by intros []|done|].
      intros e He. destruct e; try done.
      destruct (Hall _ _ _ He) as [-> ->].
      assert (an = true /\ is_ImageDir dd = false) as [-> Him] by (apply Hiff; eauto).
      rewrite Him in Hoff. discriminate.
    + destruct (Hnone Hoff) as [res Hg]. exists res. apply in_or_app. by right.
Qed.

(** C9.  Once [source.find] has returned a non-empty list, the tags of
    its first element are merged into the caller's item before the
    staged-at-source check, and the merge stays whatever happens next:
    after [handle_item], also when the item was counted as failed
    because it was not staged or its payload was not found, the item's
    tags are the merged ones and contain every remote tag. *)
Theorem handle_item_merge_persists rt item source dd rd an kh w o w' evs q b r0 rest :
  handle_item rt item source dd rd an kh w = (o, w', evs) ->
  In (SourceFind q b (Ok (r0 :: rest))) evs ->
  tags (heap w' item) = r0 ∪ tags (heap w item) /\
  r0 ⊆ tags (heap w' item) /\
  (forall d res, In (ProxyExists d res) evs -> r0 ⊆ tags d) /\
  (forall d res, In (ProxyExists d res) evs -> res = Ok false ->
     o = Ok tt /\ failed w' = c_int (failed w + 1) /\ r0 ⊆ tags (heap w' item)) /\
  (forall d v, In (ProxyGet d v (Raise FileNotFoundError)) evs ->
     o = Ok tt /\ failed w' = c_int (failed w + 1) /\ r0 ⊆ tags (heap w' item)).
Proof.
  intros H Hin. stage_cases H Hin.
  apply images_merge with (q := q) (b := b) (r0 := r0) (rest := rest) in H
    as (Ht & Hex & Hns & Hnf); [|done].
  rewrite Fheap in Ht, Hex. rewrite Ff in Hns, Hnf.
  assert (Hsub : r0 ⊆ tags (heap w' item)).
  { rewrite Ht. apply map_union_subseteq_l. }
  split; [done|]. split; [done|]. split; [|split].
  - intros d res Hd. apply (in_stage _ _ _ P1) in Hd; [|done].
    rewrite (Hex _ _ Hd). apply map_union_subseteq_l.
  - intros d res Hd ->. apply (in_stage _ _ _ P1) in Hd; [|done].
    destruct (Hns _ _ Hd eq_refl) as [-> Hf]. done.
  - intros d v Hd. apply (in_stage _ _ _ P1) in Hd; [|done].
    destruct (Hnf _ _ Hd) as [-> Hf]. done.
Qed.


(** ** [DcmDir.put] *)

(** C10.  [DcmDir.put] raises [ValueError] and leaves the file gateway
    untouched when the item's payload is absent or empty; when the
    payload is present it makes exactly one [write_file] call, for the
    name [item.fn()] and with the payload, and returns what that call
    returns. *)
Theorem DcmDir_put_writes_once rt (self : DcmDir Ext) item e o e' evs :
  DcmDir_put rt self item e = (o, e', evs) ->
  (file_truthy (file item) = false ->
   o = Raise ValueError /\ e' = e /\ List.filter is_write evs = []) /\
  (file_truthy (file item) = true ->
   List.filter is_write evs =
     [WriteFile (Dixel_fn rt item) (file_bytes (file item)) o] /\
   write_file (gateway self) (Dixel_fn rt item) (file_bytes (file item)) e = (o, e')).
Proof.
  unfold DcmDir_put. cbv [bind emit raise gcall]. intros H.
  destruct (file_truthy (file item)); cbn [negb] in H.
  - destruct (write_file _ _ _ e) as [r e1]. injection H as <- <- <-.
    split; [done|]. by intros _.
  - injection H as <- <- <-. split; [|done]. by intros _.
Qed.

(** ** [Collector.run] *)

Lemma timedelta_seconds_range tic toc : 0 <= timedelta_seconds tic toc < 86400.
Proof.
  unfold timedelta_seconds.
  pose proof (Z.mod_pos_bound (toc - tic) 86400000000 ltac:(lia)) as Hm.
  split.
  - apply Z.div_pos; lia.
  - apply Z.div_lt_upper_bound; lia.
Qed.

(** C8.  The elapsed time by which [run] divides is [(toc - tic).seconds]
    or, when that is 0, 1: it is at least 1 for any two clock readings,
    it is 1 when no time has passed, the division of the rate does not
    raise and the summary is printed. *)
Theorem elapsed_time_floor (tic toc : Z) w :
  1 <= elapsed_time tic toc /\
  elapsed_time tic toc = Z.max 1 (timedelta_seconds tic toc) /\
  elapsed_time tic tic = 1 /\
  (exists rate, truediv (handled w) (elapsed_time tic toc) w = (Ok rate, w, [])) /\
  (report_summary tic toc w).1.1 = Ok tt.
Proof.
  pose proof (timedelta_seconds_range tic toc) as Hr.
  assert (H1 : 1 <= elapsed_time tic toc).
  { unfold elapsed_time. destruct (Z.eqb_spec (timedelta_seconds tic toc) 0); lia. }
  assert (Hdiv : forall h, truediv h (elapsed_time tic toc) w =
                           (Ok (binary64 (inject_Z h / inject_Z (elapsed_time tic toc))),
                            w, [])).
  { intros h. unfold truediv.
    destruct (Z.eqb_spec (elapsed_time tic toc) 0); [lia|reflexivity]. }
  split; [exact H1|]. split.
  { unfold elapsed_time. destruct (Z.eqb_spec (timedelta_seconds tic toc) 0); lia. }
  split.
  { unfold elapsed_time, timedelta_seconds. by rewrite Z.sub_diag. }
  split; [eexists; apply Hdiv|].
  unfold report_summary. cbv [bind emit]. rewrite Hdiv. reflexivity.
Qed.

(** In pooled mode the name [p] is bound to the partial application of
    [handle_item] and then rebound to [Process(key_handler.run)], whose
    constructor fails on its positional argument: nothing is handled. *)
Lemma run_pooled_aborts rt self worklist source dest_path
    (inline_reports anonymize save_as_im : bool) delay w :
  pool_size self <> 0 ->
  run rt self worklist source dest_path inline_reports anonymize save_as_im delay w =
    match datetime_now rt (ext w) with
    | (Ok tic, e') => (Raise AssertionError, set_ext e' w, [Now (Ok tic)])
    | (Raise e, e') => (Raise e, set_ext e' w, [Now (Raise e)])
    end.
Proof.
  intros Hp. unfold run. cbv [bind call].
  destruct (datetime_now rt (ext w)) as [[tic|e] e']; [|reflexivity].
  destruct (Z.eqb_spec (pool_size self) 0); [done|]. reflexivity.
Qed.

(** Whatever the constructor does, a process object mapped over a
    non-empty slice handles no item. *)
Lemma pool_map_process_object rt item rest w :
  pool_map rt ProcessObject (item :: rest) w = (Raise TypeError, w, []).
Proof. reflexivity. Qed.

Lemma run_eta {A S} (x : Outcome A * S * list Event) o :
  x.1.1 = o -> x = (o, x.1.2, x.2).
Proof. intros <-. by destruct x as [[] ?]. Qed.

(** ** Further properties of [handle_item] *)

Lemma images_progress_last rt item source dd an w o w' evs :
  images rt item source dd an w = (o, w', evs) ->
  match o with
  | Ok _ =>
      exists pre, evs = pre ++ [progress_line w'] /\
                  (forall e, In e pre -> is_print e = false)
  | Raise _ => forall e, In e evs -> is_print e = false
  end.
Proof.
  intros H. run_images H.
  all: try (intros ev He; in_events; done).
  all: match goal with |- exists pre, ?l = _ /\ _ => exists (removelast l) end;
    split; [reflexivity|].
  all: cbn [removelast]; intros ev He; in_events; done.
Qed.

Lemma images_not_staged rt item source dd an w o w' evs d :
  images rt item source dd an w = (o, w', evs) ->
  In (ProxyExists d (Ok false)) evs ->
  o = Ok tt /\ handled w' = handled w /\ skipped w' = skipped w /\
  failed w' = c_int (failed w + 1) /\
  (forall e, In e evs -> is_after_staging e = false).
Proof.
  intros H Hin. run_images H; in_events.
  all: repeat split; try done; intros ev He; in_events; done.
Qed.

Lemma images_delete rt item source dd an w o w' evs :
  images rt item source dd an w = (o, w', evs) ->
  (forall d r, In (DestPut d r) evs ->
     exists d0, In (ProxyGet d0 VFILE (Ok d)) evs) /\
  (forall d r, In (ProxyDelete d r) evs ->
     In (DestPut d (Ok tt)) evs /\
     match r with
     | Ok _ => o = Ok tt /\ handled w' = c_int (handled w + 1) /\
               skipped w' = skipped w /\ failed w' = failed w
     | Raise e => o = Raise e /\ same_counters w w'
     end) /\
  (handled w' = handled w \/ exists d, In (ProxyDelete d (Ok tt)) evs).
Proof.
  intros H. run_images H.
  all: repeat match goal with u : unit |- _ => destruct u end.
  all: split; [intros dx rx Hin; in_events; find_in|].
  all: split; [intros dx rx Hin; in_events;
              repeat match goal with u : unit |- _ => destruct u end;
              (split; [simpl; repeat first [left; reflexivity | right]|done])|].
  all: first [left; reflexivity | right; find_in].
Qed.

Lemma images_anonymize_only rt item source dd an w o w' evs d rm r :
  images rt item source dd an w = (o, w', evs) ->
  In (ProxyAnonymize d rm r) evs ->
  an = true /\ is_ImageDir dd = false.
Proof.
  intros H Hin. run_images H; in_events.
  all: match goal with
       | E : _ && negb _ = true |- _ =>
           apply andb_true_iff in E as [-> E]; apply negb_true_iff in E
       end; done.
Qed.

Lemma images_no_key_or_report rt item source dd an w o w' evs :
  images rt item source dd an w = (o, w', evs) ->
  forall e, In e evs -> is_key_or_report e = false.
Proof.
  intros H. run_images H; intros ev He; in_events; done.
Qed.

(** [handle_item] stage by stage, with what each stage returned. *)
Lemma handle_item_unfold rt item source dd rd an kh w o w' evs :
  handle_item rt item source dd rd an kh w = (o, w', evs) ->
  exists ok eva, key_extraction (heap w item) w = (ok, w, eva) /\
    match ok with
    | Raise e => o = Raise e /\ w' = w /\ evs = eva
    | Ok key =>
        exists oe wb evb, key_emission kh key.1 key.2 w = (oe, wb, evb) /\
          match oe with
          | Raise e => o = Raise e /\ w' = wb /\ evs = eva ++ evb
          | Ok _ =>
              exists orp wc evc,
                report_persist rd (heap w item) wb = (orp, wc, evc) /\
                match orp with
                | Raise e => o = Raise e /\ w' = wc /\ evs = eva ++ evb ++ evc
                | Ok _ =>
                    exists evd, images rt item source dd an wc = (o, w', evd) /\
                                evs = eva ++ evb ++ evc ++ evd
                end
          end
    end.
Proof.
  unfold handle_item. intros H. cbv [bind deref] in H.
  destruct (key_extraction (heap w item) w) as [[ok wa] eva] eqn:E1.
  destruct (key_extraction_frame _ _ _ _ _ E1) as [-> _].
  exists ok, eva. split; [done|].
  destruct ok as [key|e]; [|by injection H as <- <- <-].
  destruct (key_emission kh key.1 key.2 w) as [[oe wb] evb] eqn:E2.
  exists oe, wb, evb. split; [done|].
  destruct oe as [[]|e]; [|by injection H as <- <- <-].
  destruct (report_persist rd (heap w item) wb) as [[orp wc] evc] eqn:E3.
  exists orp, wc, evc. split; [done|].
  destruct orp as [[]|e]; [|by injection H as <- <- <-].
  destruct (images rt item source dd an wc) as [[o4 w4] evd] eqn:E4.
  injection H as <- <- <-. by exists evd.
Qed.

Lemma key_extraction_inv d w k kd w1 ev :
  key_extraction d w = (Ok (k, kd), w1, ev) ->
  tags d !! "AccessionNumber" = Some k /\
  tags d !! "Modality" = Some (kd_modality kd) /\
  meta d !! "BodyParts" = Some (kd_body_part kd) /\
  meta d !! "CPTCodes" = Some (kd_cpts kd) /\
  meta d !! "PatientAge" = Some (kd_age kd) /\
  tags d !! "PatientSex" = Some (kd_sex kd) /\
  meta d !! "PatientStatus" = Some (kd_status kd) /\
  exists r, report d = Some r /\
    (radcat r = Ok (kd_radcat kd) /\ ev = [] \/
     radcat r = Raise ValueError /\ kd_radcat kd = "" /\
     ev = [Log ERROR (MsgException ValueError)]).
Proof.
  unfold key_extraction. unfold_monad. intros H.
  destruct (report d) as [r|] eqn:Er; [|done].
  destruct (radcat r) as [c|e] eqn:Ec.
  - explore. repeat split; try done. exists r. split; [done|]. by left.
  - destruct e; try done. explore. repeat split; try done.
    exists r. split; [done|]. by right.
Qed.

Lemma key_emission_inv kh k kd w o w1 ev :
  key_emission kh k kd w = (o, w1, ev) ->
  ev = [] /\ w1 = w /\
  match kh with
  | Some h => if kh_truthy h then o = Raise TypeError else o = Ok tt
  | None => o = Ok tt
  end.
Proof.
  unfold key_emission, isinstance_Queue. unfold_monad. intros H.
  destruct kh as [h|]; [destruct (kh_truthy h)|]; by injection H as <- <- <-.
Qed.

Lemma report_persist_inv rd d w w1 ev :
  report_persist rd d w = (Ok tt, w1, ev) ->
  match rd with
  | Some r => if rd_truthy r then ev = [ReportPut d (Ok tt)] else ev = []
  | None => ev = []
  end.
Proof.
  unfold report_persist. unfold_monad. intros H. explore; done.
Qed.

Lemma handle_item_stored rt item source dd rd an kh w w' evs :
  handle_item rt item source dd rd an kh w = (Ok tt, w', evs) ->
  exactly_one_stored w w'.
Proof.
  intros H.
  apply handle_item_stages in H
    as (w1 & ev1 & ev2 & [(Fh & Fs & Ff) Fheap] & P1 & -> & [(e0 & ? & _)|H]);
    [discriminate|].
  apply images_counts in H. unfold exactly_one_stored in *.
  rewrite Fh, Fs, Ff in H. exact H.
Qed.

Lemma prefix_not_print e : is_prefix_event e = true -> is_print e = false.
Proof. by destruct e. Qed.

(** X1.  No counter store precedes a call that can raise here: when
    [handle_item] raises from key extraction, from the test of line 142
    or from any of its collaborators, none of the three counters has
    changed and the progress print has not been reached.  ([print]
    itself is taken to return; it is what follows a counter store.) *)
Theorem handle_item_raise_uncounted rt item source dd rd an kh w e w' evs :
  handle_item rt item source dd rd an kh w = (Raise e, w', evs) ->
  same_counters w w' /\ (forall ev, In ev evs -> is_print ev = false).
Proof.
  intros H.
  apply handle_item_stages in H
    as (w1 & ev1 & ev2 & [(Fh & Fs & Ff) Fheap] & P1 & -> & [(e0 & _ & -> & ->)|H]).
  - split; [done|]. intros ev Hev. rewrite app_nil_r in Hev.
    apply prefix_not_print. by eapply prefix_only.
  - pose proof (images_counts _ _ _ _ _ _ _ _ _ H) as (Hh & Hs & Hf).
    pose proof (images_progress_last _ _ _ _ _ _ _ _ _ H) as Hp. cbn in Hp.
    split; [unfold same_counters; rewrite Hh, Hs, Hf; done|].
    apply stage_forall; [apply prefix_not_print|done|done].
Qed.

(** X2.  When [handle_item] returns, the last thing it does is print one
    progress line, which shows the counters as they are on return; it
    prints nothing else. *)
Theorem handle_item_progress_line rt item source dd rd an kh w w' evs :
  handle_item rt item source dd rd an kh w = (Ok tt, w', evs) ->
  exists pre, evs = pre ++ [progress_line w'] /\
              (forall ev, In ev pre -> is_print ev = false).
Proof.
  intros H.
  apply handle_item_stages in H
    as (w1 & ev1 & ev2 & _ & P1 & -> & [(e0 & ? & _)|H]); [discriminate|].
  apply images_progress_last in H as (pre & -> & Hpre).
  exists (ev1 ++ pre). split; [by rewrite app_assoc|].
  apply stage_forall; [apply prefix_not_print|done|done].
Qed.

(** X3.  When the proxy answers that the item is not staged,
    [handle_item] returns at once: [failed + 1] is stored into [failed]
    (an increase by exactly 1 below the largest C int), [handled] and
    [skipped] are unchanged, and nothing is anonymized, fetched, stored
    or deleted. *)
Theorem handle_item_not_staged rt item source dd rd an kh w o w' evs d :
  handle_item rt item source dd rd an kh w = (o, w', evs) ->
  In (ProxyExists d (Ok false)) evs ->
  o = Ok tt /\ handled w' = handled w /\ skipped w' = skipped w /\
  failed w' = c_int (failed w + 1) /\
  (below_max (failed w) -> failed w' = failed w + 1) /\
  (forall e, In e evs -> is_after_staging e = false).
Proof.
  intros H Hin. stage_cases H Hin.
  apply images_not_staged with (d := d) in H as (-> & Hh & Hs & Hf & Hev); [|done].
  rewrite Fh in Hh. rewrite Fs in Hs. rewrite Ff in Hf.
  repeat split; try done.
  - intros Hb. by rewrite Hf, c_int_succ.
  - apply stage_forall; [by intros []|done|done].
Qed.

(** X4.  What [handle_item] stores at the destination is a record the
    payload fetch returned, and what it deletes at the proxy is a record
    the destination has just stored without raising: the remote copy is
    never deleted before the local one is written. *)
Theorem handle_item_deletes_after_store rt item source dd rd an kh w o w' evs :
  handle_item rt item source dd rd an kh w = (o, w', evs) ->
  (forall d r, In (DestPut d r) evs ->
     exists d0, In (ProxyGet d0 VFILE (Ok d)) evs) /\
  (forall d r, In (ProxyDelete d r) evs ->
     In (DestPut d (Ok tt)) evs /\ exists d0, In (ProxyGet d0 VFILE (Ok d)) evs).
Proof.
  intros H.
  apply handle_item_stages in H
    as (w1 & ev1 & ev2 & _ & P1 & -> & [(e0 & _ & _ & ->)|H]).
  - split; intros d r Hin; rewrite app_nil_r in Hin;
      apply (prefix_only _ _ P1) in Hin; done.
  - apply images_delete in H as (Hput & Hdel & _).
    assert (Hp : forall d r, In (DestPut d r) (ev1 ++ ev2) ->
                 exists d0, In (ProxyGet d0 VFILE (Ok d)) (ev1 ++ ev2)).
    { intros d r Hin. apply (in_stage _ _ _ P1) in Hin; [|done].
      destruct (Hput _ _ Hin) as [d0 Hg]. exists d0. apply in_or_app. by right. }
    split; [exact Hp|].
    intros d r Hin. apply (in_stage _ _ _ P1) in Hin; [|done].
    destruct (Hdel _ _ Hin) as [Hd _].
    assert (Hd' : In (DestPut d (Ok tt)) (ev1 ++ ev2)) by (apply in_or_app; by right).
    split; [exact Hd'|]. by eapply Hp.
Qed.

(** X5.  [handled] counts the items whose remote copy was deleted: if
    [source.proxy.delete] returned, [handle_item] returns with
    [handled + 1] stored into [handled] and the other counters
    unchanged; if it raised, [handle_item] raises the same exception
    with all counters unchanged although the item has been stored; and
    without a returning delete [handled] keeps its value. *)
Theorem handle_item_handled_iff_deleted rt item source dd rd an kh w o w' evs :
  handle_item rt item source dd rd an kh w = (o, w', evs) ->
  (forall d, In (ProxyDelete d (Ok tt)) evs ->
     o = Ok tt /\ handled w' = c_int (handled w + 1) /\
     skipped w' = skipped w /\ failed w' = failed w) /\
  (forall d e, In (ProxyDelete d (Raise e)) evs ->
     o = Raise e /\ same_counters w w' /\ In (DestPut d (Ok tt)) evs) /\
  (handled w' = handled w \/ exists d, In (ProxyDelete d (Ok tt)) evs).
Proof.
  intros H.
  apply handle_item_stages in H
    as (w1 & ev1 & ev2 & [(Fh & Fs & Ff) Fheap] & P1 & -> & [(e0 & _ & -> & ->)|H]).
  - split; [|split].
    + intros d Hin. rewrite app_nil_r in Hin. apply (prefix_only _ _ P1) in Hin. done.
    + intros d e Hin. rewrite app_nil_r in Hin. apply (prefix_only _ _ P1) in Hin. done.
    + by left.
  - apply images_delete in H as (_ & Hdel & Hh).
    rewrite Fh in Hh. split; [|split].
    + intros d Hin. apply (in_stage _ _ _ P1) in Hin; [|done].
      destruct (Hdel _ _ Hin) as [_ (-> & H1 & H2 & H3)].
      rewrite Fh in H1. rewrite Fs in H2. rewrite Ff in H3. done.
    + intros d e Hin. apply (in_stage _ _ _ P1) in Hin; [|done].
      destruct (Hdel _ _ Hin) as [Hp (-> & H1 & H2 & H3)].
      split; [done|]. split.
      * unfold same_counters. rewrite H1, H2, H3. done.
      * apply in_or_app. by right.
    + destruct Hh as [Hh|[d Hd]]; [by left|]. right. exists d.
      apply in_or_app. by right.
Qed.

Lemma images_checks_item rt item source dd an w o w' evs d r :
  images rt item source dd an w = (o, w', evs) ->
  In (DestExists d r) evs -> d = heap w item.
Proof.
  intros H Hin. run_images H; in_events; done.
Qed.

(** X6.  Report persist comes before the idempotency check and does
    not depend on it.  Whenever [handle_item] asks the destination
    whether the item exists, it asks for the item as the caller passed
    it; key emission has called nothing, the key handler being [None]
    or falsy; and a truthy report destination has already stored that
    item without raising, so an item that is then skipped has its
    report written all the same.  Without a report destination no
    report is ever written. *)
Theorem handle_item_report_before_check rt item source dd rd an kh w o w' evs d r :
  handle_item rt item source dd rd an kh w = (o, w', evs) ->
  In (DestExists d r) evs ->
  d = heap w item /\
  (forall h, kh = Some h -> kh_truthy h = false) /\
  (forall args r', ~ In (KeyPut args r') evs) /\
  match rd with
  | Some rep => rd_truthy rep = true -> In (ReportPut (heap w item) (Ok tt)) evs
  | None => forall d' r', ~ In (ReportPut d' r') evs
  end.
Proof.
  intros H Hin.
  apply handle_item_unfold in H as (ok & eva & E1 & H).
  pose proof (key_extraction_frame _ _ _ _ _ E1) as [_ Pa].
  destruct ok as [[k kd]|e]; [|destruct H as (_ & _ & ->);
    apply (prefix_only _ _ Pa) in Hin; done].
  destruct H as (oe & wb & evb & E2 & H).
  apply key_emission_inv in E2 as (-> & -> & Hkh).
  cbn [app] in H; rewrite ?app_nil_r in H.
  destruct oe as [[]|e].
  2:{ destruct H as (_ & _ & ->). apply (prefix_only _ _ Pa) in Hin. done. }
  destruct H as (orp & wc & evc & E3 & H).
  pose proof (report_persist_frame _ _ _ _ _ _ E3) as [[_ Fc] Pc].
  assert (Pac : forallb is_prefix_event (eva ++ evc) = true)
    by (by rewrite forallb_app, Pa, Pc).
  destruct orp as [[]|e].
  2:{ destruct H as (_ & _ & ->). apply (prefix_only _ _ Pac) in Hin. done. }
  destruct H as (evd & E4 & ->).
  rewrite !app_assoc in Hin. apply (in_stage _ _ _ Pac) in Hin; [|done].
  apply report_persist_inv in E3.
  apply key_extraction_inv in E1 as (_ & _ & _ & _ & _ & _ & _ & rr & _ & Hev).
  assert (Ha : forall e, In e eva -> is_key_or_report e = false).
  { intros e He. destruct Hev as [[_ ->]|(_ & _ & ->)]; in_events; done. }
  split.
  { rewrite (images_checks_item _ _ _ _ _ _ _ _ _ _ _ E4 Hin). by rewrite Fc. }
  split.
  { intros h ->. by destruct (kh_truthy h). }
  split.
  { intros args r' He.
    apply in_app_or in He as [He|He]; [by apply Ha in He|].
    apply in_app_or in He as [He|He].
    - destruct rd as [rep|]; [destruct (rd_truthy rep)|]; subst evc; in_events.
    - by apply (images_no_key_or_report _ _ _ _ _ _ _ _ _ E4) in He. }
  destruct rd as [rep|].
  - intros Ht. rewrite Ht in E3. subst evc.
    apply in_or_app. right. apply in_or_app. left. by left.
  - subst evc. intros d' r' He.
    apply in_app_or in He as [He|He]; [by apply Ha in He|].
    cbn in He. by apply (images_no_key_or_report _ _ _ _ _ _ _ _ _ E4) in He.
Qed.

Lemma handle_item_keyed rt item source dd rd an h w :
  kh_truthy h = true ->
  handle_item rt item source dd rd an (Some h) w =
    match key_extraction (heap w item) w with
    | (Ok _, _, ev) => (Raise TypeError, w, ev)
    | (Raise e, _, ev) => (Raise e, w, ev)
    end.
Proof.
  intros Ht. unfold handle_item. cbv [bind deref].
  destruct (key_extraction (heap w item) w) as [[ok wa] eva] eqn:E1.
  destruct (key_extraction_frame _ _ _ _ _ E1) as [-> _].
  destruct ok as [key|e]; [|done].
  unfold key_emission, isinstance_Queue. rewrite Ht. cbv [bind lift].
  by rewrite app_nil_r.
Qed.

(** X7.  [key_handler.put] is never called.  With a truthy key handler
    the test of line 142 raises [TypeError] as soon as key extraction
    has returned: [handle_item] raises, [TypeError] unless key
    extraction raised first, with counters, items and external state
    as they were and no collaborator called; what it has done is at
    most to log the categorization error.  An item gets past key
    emission only when the key handler is [None] or falsy. *)
Theorem handle_item_never_puts_key rt item source dd rd an kh w o w' evs :
  handle_item rt item source dd rd an kh w = (o, w', evs) ->
  (forall args r, ~ In (KeyPut args r) evs) /\
  (forall h, kh = Some h -> kh_truthy h = true ->
     (exists e, o = Raise e) /\ w' = w /\
     (forall ev, In ev evs -> ev = Log ERROR (MsgException ValueError)) /\
     (forall key wa eva, key_extraction (heap w item) w = (Ok key, wa, eva) ->
        o = Raise TypeError)).
Proof.
  intros H. split.
  - intros args r Hin.
    apply handle_item_unfold in H as (ok & eva & E1 & H).
    assert (Ha : forall e, In e eva -> is_key_or_report e = false).
    { intros e He. unfold key_extraction in E1. unfold_monad. clear H.
      explore; in_events; done. }
    destruct ok as [[k kd]|e].
    2:{ destruct H as (_ & _ & ->). by apply Ha in Hin. }
    destruct H as (oe & wb & evb & E2 & H).
    apply key_emission_inv in E2 as (-> & -> & _).
    cbn [app] in H; rewrite ?app_nil_r in H.
    destruct oe as [[]|e].
    2:{ destruct H as (_ & _ & ->). by apply Ha in Hin. }
    destruct H as (orp & wc & evc & E3 & H).
    assert (Hc : forall e, In e evc -> e <> KeyPut args r).
    { intros e He ->. unfold report_persist in E3. unfold_monad. clear H.
      explore; in_events. }
    destruct orp as [[]|e].
    2:{ destruct H as (_ & _ & ->).
        apply in_app_or in Hin as [Hin|Hin]; [by apply Ha in Hin|by apply Hc in Hin]. }
    destruct H as (evd & E4 & ->).
    apply in_app_or in Hin as [Hin|Hin]; [by apply Ha in Hin|].
    apply in_app_or in Hin as [Hin|Hin]; [by apply Hc in Hin|].
    by apply (images_no_key_or_report _ _ _ _ _ _ _ _ _ E4) in Hin.
  - intros h -> Ht. rewrite (handle_item_keyed _ _ _ _ _ _ _ _ Ht) in H.
    destruct (key_extraction (heap w item) w) as [[ok wa] eva] eqn:E1.
    assert (Hlog : forall ev, In ev eva -> ev = Log ERROR (MsgException ValueError)).
    { clear H. intros ev He. unfold key_extraction in E1. unfold_monad.
      destruct (report (heap w item)) as [rep|]; [destruct (radcat rep) as [c|[]]|];
        red_world; explore; simplify_eq; in_events; done. }
    destruct ok as [key|e]; injection H as <- <- <-.
    + split; [by eexists|]. split; [done|]. split; [done|]. done.
    + split; [by eexists|]. split; [done|]. split; [done|]. intros ? ? ? [=].
Qed.

(** ** Further properties of [run] *)

Lemma serial_loop_cons rt item rest source dd rd an kh w :
  serial_loop rt (item :: rest) source dd rd an kh w =
    match handle_item rt item source dd rd an kh w with
    | (Ok _, w1, ev1) =>
        match serial_loop rt rest source dd rd an kh w1 with
        | (o, w2, ev2) => (o, w2, ev1 ++ ev2)
        end
    | (Raise e, w1, ev1) => (Raise e, w1, ev1)
    end.
Proof. reflexivity. Qed.

(** What holds of every event of every run of [handle_item] holds of
    every event of the serial loop. *)
Lemma serial_loop_forall (P : Event -> Prop) rt source dd rd an kh :
  (forall item w o w' evs,
     handle_item rt item source dd rd an kh w = (o, w', evs) ->
     forall e, In e evs -> P e) ->
  forall worklist w o w' evs,
    serial_loop rt worklist source dd rd an kh w = (o, w', evs) ->
    forall e, In e evs -> P e.
Proof.
  intros HP worklist. induction worklist as [|item rest IH]; intros w o w' evs H e He.
  - injection H as <- <- <-. destruct He.
  - rewrite serial_loop_cons in H.
    destruct (handle_item rt item source dd rd an kh w) as [[[[]|ex] w1] ev1] eqn:E1.
    + destruct (serial_loop rt rest source dd rd an kh w1) as [[o2 w2] ev2] eqn:E2.
      injection H as <- <- <-. apply in_app_or in He as [He|He]; eauto.
    + injection H as <- <- <-. eauto.
Qed.

Lemma room_for_step n z : room_for (S n) z -> below_max z /\ room_for n (z + 1).
Proof. unfold room_for, below_max. lia. Qed.

Lemma room_for_weaken n z : room_for (S n) z -> room_for n z.
Proof. unfold room_for. lia. Qed.

(** X8.  The serial loop counts every item once: when it returns over a
    worklist of [n] items, no counter has gone down and the three
    counters together have gone up by exactly [n], provided each counter
    had room for [n] increments below the largest C int. *)
Theorem serial_loop_counts_every_item rt worklist source dd rd an kh w w' evs :
  serial_loop rt worklist source dd rd an kh w = (Ok tt, w', evs) ->
  room_for (length worklist) (handled w) ->
  room_for (length worklist) (skipped w) ->
  room_for (length worklist) (failed w) ->
  handled w <= handled w' /\ skipped w <= skipped w' /\ failed w <= failed w' /\
  total w' = total w + Z.of_nat (length worklist).
Proof.
  revert w evs. induction worklist as [|item rest IH]; intros w evs H Hh Hs Hf.
  - injection H as <- <-. unfold total. cbn. lia.
  - rewrite serial_loop_cons in H.
    destruct (handle_item rt item source dd rd an kh w) as [[[[]|ex] w1] ev1] eqn:E1;
      [|discriminate].
    destruct (serial_loop rt rest source dd rd an kh w1) as [[o2 w2] ev2] eqn:E2.
    injection H as -> -> <-.
    apply handle_item_stored in E1.
    cbn [length] in Hh, Hs, Hf.
    destruct (room_for_step _ _ Hh) as [Bh Rh].
    destruct (room_for_step _ _ Hs) as [Bs Rs].
    destruct (room_for_step _ _ Hf) as [Bf Rf].
    apply room_for_weaken in Hh, Hs, Hf.
    unfold exactly_one_stored in E1. rewrite !c_int_succ in E1 by assumption.
    assert (IH' := IH w1 ev2 E2). unfold total in *. cbn [length].
    destruct E1 as [(E1 & E2' & E3)|[(E1 & E2' & E3)|(E1 & E2' & E3)]];
      rewrite E1, E2', E3 in IH'; destruct IH' as (? & ? & ? & ?);
      try assumption; lia.
Qed.

Lemma summary_runs (tic toc : Z) w :
  report_summary tic toc w =
    (Ok tt, w,
     [Print (SummaryHandled (handled w) (elapsed_time tic toc));
      Print (SummaryRate
               (round (binary64 (inject_Z (handled w) / inject_Z (elapsed_time tic toc)))
                  1));
      Print (SummarySkipped (skipped w));
      Print (SummaryFailed (failed w))]) /\
  1 <= elapsed_time tic toc.
Proof.
  pose proof (timedelta_seconds_range tic toc) as Hr.
  assert (H1 : 1 <= elapsed_time tic toc).
  { unfold elapsed_time. destruct (Z.eqb_spec (timedelta_seconds tic toc) 0); lia. }
  split; [|exact H1].
  unfold report_summary, truediv. cbv [bind emit ret raise].
  destruct (Z.eqb_spec (elapsed_time tic toc) 0); [lia|reflexivity].
Qed.

(** X9.  When [run] returns in serial mode, it has read the clock twice
    and its last four lines are the summary: the final value of
    [handled] with the elapsed seconds, which are at least 1; their
    quotient as a float, rounded to one decimal; and the final values
    of [skipped] and [failed].  Over a worklist that is not empty it
    returns only when the key map it builds is falsy. *)
Theorem run_serial_summary rt self worklist source dest_path
    (inline_reports anonymize save_as_im : bool) delay w w' evs :
  pool_size self = 0 ->
  run rt self worklist source dest_path inline_reports anonymize save_as_im delay w
    = (Ok tt, w', evs) ->
  (exists tic toc mid,
     evs = Now (Ok tic) :: mid ++
           [Now (Ok toc);
            Print (SummaryHandled (handled w') (elapsed_time tic toc));
            Print (SummaryRate
                     (round (binary64 (inject_Z (handled w') /
                                       inject_Z (elapsed_time tic toc))) 1));
            Print (SummarySkipped (skipped w'));
            Print (SummaryFailed (failed w'))] /\
     1 <= elapsed_time tic toc /\
     (forall e, In e mid -> is_handler_event e = true)) /\
  (worklist <> [] ->
   kh_truthy (km_self (CSVArrayPMap_new rt (dest_path +:+ "/meta/key-{}.csv") "id"
                         fieldnames)) = false).
Proof.
  intros Hp H. unfold run in H. rewrite Hp in H. cbn [Z.eqb] in H.
  cbv [bind call] in H.
  destruct (datetime_now rt (ext w)) as [[tic|?] e1]; [|discriminate].
  match type of H with
  | context [serial_loop ?a ?b ?c ?d ?e ?f ?g ?h] =>
      destruct (serial_loop a b c d e f g h) as [[[[]|?] w1] mid] eqn:E1;
        [|discriminate]
  end.
  destruct (datetime_now rt (ext w1)) as [[toc|?] e2]; [|discriminate].
  destruct (summary_runs tic toc (set_ext e2 w1)) as [Hs H1]. rewrite Hs in H.
  injection H as <- <-.
  split.
  - exists tic, toc, mid. split; [|split; [exact H1|]].
    + reflexivity.
    + revert E1. apply serial_loop_forall. clear.
      intros item w o w' evs H e He.
      apply handle_item_stages in H
        as (w1 & ev1 & ev2 & _ & P1 & -> & [(e0 & _ & _ & ->)|H]).
      * rewrite app_nil_r in He. apply (prefix_only _ _ P1) in He. by destruct e.
      * apply in_app_or in He as [He|He].
        -- apply (prefix_only _ _ P1) in He. by destruct e.
        -- clear P1. run_images H; in_events; done.
  - intros Hne. destruct worklist as [|item rest]; [done|].
    rewrite serial_loop_cons in E1.
    match type of E1 with
    | context [handle_item _ _ _ _ _ _ (Some ?h) _] =>
        destruct (kh_truthy h) eqn:Ht; [|reflexivity];
        rewrite (handle_item_keyed _ _ _ _ _ _ h _ Ht) in E1
    end.
    destruct (key_extraction _ _) as [[[key|ex] wa] eva]; discriminate.
Qed.

(** X10.  With [save_as_im] the destination is an [ImageDir], and [run]
    never asks the proxy to anonymize anything, whatever the
    [anonymize] flag, the pool size and the worklist. *)
Theorem run_as_images_never_anonymizes rt self worklist source dest_path
    (inline_reports anonymize : bool) delay w o w' evs :
  run rt self worklist source dest_path inline_reports anonymize true delay w
    = (o, w', evs) ->
  forall e, In e evs -> is_anonymize e = false.
Proof.
  intros H. destruct (Z.eq_dec (pool_size self) 0) as [Hp|Hp].
  - unfold run in H. rewrite Hp in H. cbn [Z.eqb] in H. cbv [bind call] in H.
    destruct (datetime_now rt (ext w)) as [[tic|ex] e1].
    2:{ injection H as <- <- <-. intros ev He. in_events. done. }
    match type of H with
    | context [serial_loop ?a ?b ?c ?d ?e ?f ?g ?h] =>
        destruct (serial_loop a b c d e f g h) as [[ol w1] mid] eqn:E1
    end.
    assert (Hmid : forall ev, In ev mid -> is_anonymize ev = false).
    { revert E1. apply serial_loop_forall.
      intros item w0 o0 w0' evs0 H0 ev He. destruct ev; try done. exfalso.
      apply handle_item_stages in H0
        as (w2 & ev1 & ev2 & _ & P1 & -> & [(e0 & _ & _ & ->)|H0]).
      - rewrite app_nil_r in He. apply (prefix_only _ _ P1) in He. done.
      - apply (in_stage _ _ _ P1) in He; [|done].
        apply (images_anonymize_only _ _ _ _ _ _ _ _ _ _ _ _ H0) in He as [_ He].
        done. }
    destruct ol as [[]|ex].
    2:{ injection H as <- <- <-. intros ev [<-|He]; [done|]. auto. }
    destruct (datetime_now rt (ext w1)) as [[toc|ex] e2].
    + destruct (summary_runs tic toc (set_ext e2 w1)) as [Hs _]. rewrite Hs in H.
      injection H as <- <- <-. intros ev [<-|He]; [done|].
      apply in_app_or in He as [He|He]; [auto|]. in_events; done.
    + injection H as <- <- <-. intros ev [<-|He]; [done|].
      apply in_app_or in He as [He|He]; [auto|]. in_events; done.
  - rewrite run_pooled_aborts in H by done.
    destruct (datetime_now rt (ext w)) as [[tic|ex] e1]; injection H as <- <- <-;
      intros ev He; in_events; done.
Qed.

(** X11.  In pooled mode, for any non-zero pool size, [run] stops at the
    [Process] constructor: it raises, it has called nothing but the
    clock, and counters and items are as they were.  The summary is not
    printed. *)
Theorem run_pooled_never_handles rt self worklist source dest_path
    (inline_reports anonymize save_as_im : bool) delay w o w' evs :
  pool_size self <> 0 ->
  run rt self worklist source dest_path inline_reports anonymize save_as_im delay w
    = (o, w', evs) ->
  (exists e, o = Raise e) /\
  same_counters w w' /\ heap w' = heap w /\
  (exists r, evs = [Now r] /\ (forall tic, r = Ok tic -> o = Raise AssertionError)).
Proof.
  intros Hp H. rewrite run_pooled_aborts in H by done.
  destruct (datetime_now rt (ext w)) as [[tic|e] e1]; injection H as <- <- <-.
  - split; [eauto|]. split; [done|]. split; [done|]. eexists. split; [done|]. done.
  - split; [eauto|]. split; [done|]. split; [done|]. eexists. split; [done|]. done.
Qed.

(** ** Stores, the heap and the order of the calls *)

Lemma images_put_outcome rt item source dd an w o w' evs d r :
  images rt item source dd an w = (o, w', evs) ->
  In (DestPut d r) evs ->
  (exists e, (dest_put dd d e).1 = r) /\
  match r with
  | Ok _ => True
  | Raise ex => o = Raise ex /\ same_counters w w' /\
                (forall e, In e evs -> is_delete e = false)
  end.
Proof.
  intros H Hin. run_images H; in_events.
  all: split; [eexists; match goal with E : dest_put _ _ _ = _ |- _ => by rewrite E end|].
  all: try done.
  all: split; [done|]; split; [done|]; intros ev He; in_events; done.
Qed.

Lemma images_heap rt item source dd an w o w' evs :
  images rt item source dd an w = (o, w', evs) ->
  heap w' = heap w \/
  exists r0, heap w' = <[item := set_tags (r0 ∪ tags (heap w item)) (heap w item)]> (heap w).
Proof.
  intros H. run_images H; first [by left | right; by eexists].
Qed.

Lemma images_stages rt item source dd an w o w' evs :
  images rt item source dd an w = (o, w', evs) ->
  increasing_from 2 (omap call_stage evs) = true.
Proof.
  intros H. run_images H; reflexivity.
Qed.

Lemma increasing_weaken lo lo' l :
  (lo' <= lo)%nat -> increasing_from lo l = true -> increasing_from lo' l = true.
Proof.
  destruct l as [|k rest]; [done|]. cbn. intros Hle H.
  apply andb_true_iff in H as [Hk H]. rewrite H.
  apply Nat.leb_le in Hk. rewrite (proj2 (Nat.leb_le lo' k)) by lia. done.
Qed.

Lemma increasing_app lo m l1 l2 :
  (lo <= m)%nat ->
  increasing_from lo l1 = true -> (forall k, In k l1 -> (k < m)%nat) ->
  increasing_from m l2 = true -> increasing_from lo (l1 ++ l2) = true.
Proof.
  revert lo. induction l1 as [|k rest IH]; intros lo Hle H1 Hlt H2.
  - by apply (increasing_weaken m).
  - cbn in *. apply andb_true_iff in H1 as [Hk H1]. rewrite Hk. cbn.
    apply IH; [|done| |done].
    + apply Hlt. by left.
    + intros k' Hk'. apply Hlt. by right.
Qed.

(** X16.  A store that fails is fatal and uncounted, and keeps the
    remote copy: when [data_dest.put] raises, [handle_item] raises the
    same exception, no counter changes and [source.proxy.delete] is not
    called.  With a [DcmDir] destination that is what happens to a
    fetched record without payload: [put] raises [ValueError]. *)
Theorem handle_item_store_failure rt item source dd rd an kh w o w' evs d ex :
  handle_item rt item source dd rd an kh w = (o, w', evs) ->
  In (DestPut d (Raise ex)) evs ->
  o = Raise ex /\ same_counters w w' /\
  (forall e, In e evs -> is_delete e = false) /\
  (forall self, dd = DcmDir_as_dest rt self -> file_truthy (file d) = false ->
     ex = ValueError).
Proof.
  intros H Hin. stage_cases H Hin.
  apply images_put_outcome with (d := d) (r := Raise ex) in H
    as ([e He] & -> & (Hh & Hs & Hf) & Hev); [|done].
  split; [done|]. split.
  { unfold same_counters. rewrite Hh, Hs, Hf. done. }
  split.
  { apply stage_forall; [by intros []|done|done]. }
  intros self -> Ht. revert He.
  unfold DcmDir_as_dest, DcmDir_put. cbn [dest_put]. cbv [bind emit raise gcall].
  rewrite Ht. cbn. congruence.
Qed.

(** X17.  The only object [handle_item] itself changes is the item, and
    of the item only the tags, where the merge adds or overwrites keys
    but removes none. *)
Theorem handle_item_frame rt item source dd rd an kh w o w' evs :
  handle_item rt item source dd rd an kh w = (o, w', evs) ->
  (forall other, other <> item -> heap w' other = heap w other) /\
  meta (heap w' item) = meta (heap w item) /\
  report (heap w' item) = report (heap w item) /\
  file (heap w' item) = file (heap w item) /\
  (forall k, is_Some (tags (heap w item) !! k) -> is_Some (tags (heap w' item) !! k)).
Proof.
  intros H.
  apply handle_item_stages in H
    as (w1 & ev1 & ev2 & [_ Fheap] & _ & _ & [(e0 & _ & -> & _)|H]).
  - rewrite Fheap. done.
  - apply images_heap in H as [->|[r0 ->]]; rewrite Fheap; [done|].
    split; [intros other Hne; by rewrite fn_lookup_insert_ne|].
    rewrite fn_lookup_insert. repeat split; try done.
    intros k [v Hv]. cbn [tags set_tags].
    destruct (r0 !! k) as [v'|] eqn:Hr.
    + exists v'. by apply lookup_union_Some_l.
    + exists v. rewrite lookup_union_r; done.
Qed.

(** X18.  [handle_item] calls its collaborators in the order of the
    stages, each at most once: key handler, report destination,
    destination check, factory copy, find, staged check, anonymize,
    fetch, store, delete. *)
Theorem handle_item_stage_order rt item source dd rd an kh w o w' evs :
  handle_item rt item source dd rd an kh w = (o, w', evs) ->
  increasing_from 0 (omap call_stage evs) = true.
Proof.
  intros H.
  apply handle_item_unfold in H as (ok & eva & E1 & H).
  assert (Ha : omap call_stage eva = []).
  { unfold key_extraction in E1. unfold_monad. clear H. explore; reflexivity. }
  assert (Hstart : forall l, increasing_from 2 l = true ->
                             increasing_from 0 l = true).
  { intros l. apply increasing_weaken. lia. }
  destruct ok as [[k kd]|e]; [|destruct H as (_ & _ & ->); by rewrite Ha].
  destruct H as (oe & wb & evb & E2 & H).
  assert (Hb : omap call_stage evb = [] \/ omap call_stage evb = [0%nat]).
  { apply key_emission_inv in E2 as (-> & _ & _). by left. }
  destruct oe as [[]|e].
  2:{ destruct H as (_ & _ & ->). rewrite omap_app, Ha.
      by destruct Hb as [->| ->]. }
  destruct H as (orp & wc & evc & E3 & H).
  assert (Hc : omap call_stage evc = [] \/ omap call_stage evc = [1%nat]).
  { unfold report_persist in E3. unfold_monad. clear H.
      explore; first [by left | by right]. }
  assert (Hbc : increasing_from 0 (omap call_stage evb ++ omap call_stage evc) = true
                /\ forall k, In k (omap call_stage evb ++ omap call_stage evc) ->
                             (k < 2)%nat).
  { destruct Hb as [->| ->], Hc as [->| ->]; cbn; split; try done;
      intros k' Hk; cbn in Hk; lia. }
  destruct Hbc as [Hinc Hlt].
  destruct orp as [[]|e].
  2:{ destruct H as (_ & _ & ->). rewrite !omap_app, Ha. exact Hinc. }
  destruct H as (evd & E4 & ->).
  rewrite !omap_app, Ha. cbn [app]. rewrite app_assoc.
  eapply (increasing_app 0 2); [lia|exact Hinc|exact Hlt|].
  by eapply images_stages.
Qed.

End Properties.

(** ** Further properties of [DcmDir] *)

Section DcmDirProperties.

Context {Ext Ds : Type}.

(** X12.  What [put] stores, [get] reads back.  For a gateway that keeps
    what it wrote (after a successful [write_file] of [data] under a
    name, [exists] answers true for the name and [read_file] returns
    [data], and neither [exists] nor the gateway's [get] disturbs that),
    [get(item, get_file=True)] after a returning [put(item)] does not
    raise [FileNotFoundError] from its existence check; it returns what
    [Dixel.from_pydicom] makes of the data set, with [item.file] as its
    file, unless the gateway's [get] or [from_pydicom] raises. *)
Theorem DcmDir_put_get_round_trip (rt : Runtime Ext)
    (from_pydicom : Ds -> string -> Outcome Dixel)
    (self : DcmDir Ext) (reader : DcmFileReader Ext Ds)
    (holds : Ext -> string -> list Byte.byte -> Prop)
    item get_pixels e e1 evs1 o e2 evs2 :
  (forall name data s s', write_file (gateway self) name data s = (Ok tt, s') ->
                          holds s' name data) ->
  (forall name data s, holds s name data ->
     exists s', gw_exists (gateway self) (FnStr name) s = (Ok true, s') /\
                holds s' name data) ->
  (forall name data px s r s', holds s name data ->
     gw_get reader name px s = (r, s') -> holds s' name data) ->
  (forall name data s, holds s name data ->
     exists s', read_file reader name s = (Ok data, s')) ->
  DcmDir_put rt self item e = (Ok tt, e1, evs1) ->
  DcmDir_get rt from_pydicom self reader (ArgDixel item) get_pixels true e1
    = (o, e2, evs2) ->
  exists ea, gw_exists (gateway self) (FnStr (Dixel_fn rt item)) e1 = (Ok true, ea) /\
    match gw_get reader (Dixel_fn rt item) (Some get_pixels) ea with
    | (Ok ds, _) =>
        match from_pydicom ds (Dixel_fn rt item) with
        | Ok d => o = Ok (set_file (file item) d)
        | Raise ex => o = Raise ex
        end
    | (Raise ex, eb) => o = Raise ex /\ e2 = eb
    end.
Proof.
  intros Hwrite Hexists Hget Hread Hput Hg.
  assert (Hf : file_truthy (file item) = true /\
               holds e1 (Dixel_fn rt item) (file_bytes (file item))).
  { unfold DcmDir_put in Hput. cbv [bind emit raise gcall] in Hput.
    destruct (file_truthy (file item)); cbn [negb] in Hput; [|discriminate].
    split; [done|].
    destruct (write_file _ _ _ e) as [[[]|] s'] eqn:Ew; [|discriminate].
    injection Hput as <- _. by eapply Hwrite. }
  destruct Hf as [Ht Hh].
  destruct (Hexists _ _ _ Hh) as (ea & Hex & Hha). exists ea. split; [exact Hex|].
  unfold DcmDir_get, DcmDir_exists, resolve_fn in Hg.
  cbv [bind emit raise ret lift quiet] in Hg. rewrite Hex in Hg. cbn [negb] in Hg.
  destruct (gw_get reader (Dixel_fn rt item) (Some get_pixels) ea) as [[ds|ex] eb] eqn:Eg.
  2:{ by injection Hg as <- <- _. }
  pose proof (Hget _ _ _ _ _ _ Hha Eg) as Hhb.
  destruct (from_pydicom ds (Dixel_fn rt item)) as [d|ex]; [|by injection Hg as <- _ _].
  destruct (Hread _ _ _ Hhb) as (ec & Hr). rewrite Hr in Hg. injection Hg as <- _ _.
  destruct (file item) as [[|b l]|]; try discriminate. reflexivity.
Qed.

(** X13.  [update] never writes the item it is given: for an item with a
    payload, the name written is the [fn] argument, the data written is
    the class attribute [Dixel.file], and outcome, state and trace are
    the same for every other item with a payload. *)
Theorem DcmDir_update_ignores_payload (class_file : Outcome (list Byte.byte))
    (self : DcmDir Ext) fn item e o e' evs :
  DcmDir_update class_file self fn item e = (o, e', evs) ->
  file_truthy (file item) = true ->
  (forall item', file_truthy (file item') = true ->
     DcmDir_update class_file self fn item' e = (o, e', evs)) /\
  (forall name data r, In (WriteFile name data r) evs ->
     name = fn /\ class_file = Ok data /\ r = o).
Proof.
  unfold DcmDir_update. cbv [bind emit raise lift gcall]. intros H Ht.
  rewrite Ht in H. cbn [negb] in H. split.
  - intros item' Ht'. rewrite Ht'. exact H.
  - intros name data r Hin. destruct class_file as [cf|ex].
    + destruct (write_file (gateway self) fn cf e) as [r0 s']. injection H as <- <- <-.
      destruct Hin as [Hin|[Hin|[]]]; [discriminate|]. by injection Hin as <- <- <-.
    + injection H as <- <- <-. destruct Hin as [Hin|[]]. discriminate.
Qed.

(** X20.  What [delete] removes, [get] no longer finds, and the two
    methods agree on what an item names.  For an item that is neither a
    [str] nor has [fn], or whose [fn()] raises, both raise the same
    exception and leave the gateway alone.  Otherwise, for a gateway
    where after a returning [delete] of a name [exists] answers false
    for it, [get] of the item after a returning [delete] of the item
    raises [FileNotFoundError], whatever [get_pixels] and [get_file]. *)
Theorem DcmDir_delete_then_get (rt : Runtime Ext)
    (from_pydicom : Ds -> string -> Outcome Dixel)
    (self : DcmDir Ext) (reader : DcmFileReader Ext Ds)
    item (get_pixels get_file : bool) e o1 e1 evs1 o2 e2 evs2 :
  (forall name s s', gw_delete reader name s = (Ok tt, s') ->
     exists s'', gw_exists (gateway self) (FnStr name) s' = (Ok false, s'')) ->
  DcmDir_delete rt self reader item e = (o1, e1, evs1) ->
  DcmDir_get rt from_pydicom self reader item get_pixels get_file e1
    = (o2, e2, evs2) ->
  match item with
  | ArgOther => o1 = Raise ValueError /\ o2 = Raise ValueError /\ e2 = e
  | ArgWithFn (Raise ex) => o1 = Raise ex /\ o2 = Raise ex /\ e2 = e
  | _ => o1 = Ok tt -> o2 = Raise FileNotFoundError
  end.
Proof.
  intros Hlaw Hd Hg.
  unfold DcmDir_delete, DcmDir_get, DcmDir_exists, resolve_fn, quiet in Hd, Hg.
  cbv [bind emit raise ret lift] in Hd, Hg.
  destruct item as [fn|d|[fn|ex]|]; simpl in Hd, Hg.
  - destruct (gw_delete reader fn e) as [[[]|ex] s'] eqn:E;
      injection Hd as <- <- <-; [|discriminate].
    intros _. destruct (Hlaw _ _ _ E) as [s'' Hex].
    rewrite Hex in Hg. simpl in Hg. by injection Hg as <- _ _.
  - destruct (gw_delete reader (Dixel_fn rt d) e) as [[[]|ex] s'] eqn:E;
      injection Hd as <- <- <-; [|discriminate].
    intros _. destruct (Hlaw _ _ _ E) as [s'' Hex].
    rewrite Hex in Hg. simpl in Hg. by injection Hg as <- _ _.
  - destruct (gw_delete reader fn e) as [[[]|ex] s'] eqn:E;
      injection Hd as <- <- <-; [|discriminate].
    intros _. destruct (Hlaw _ _ _ E) as [s'' Hex].
    rewrite Hex in Hg. simpl in Hg. by injection Hg as <- _ _.
  - injection Hd as <- <- <-. by injection Hg as <- <- _.
  - injection Hd as <- <- <-. by injection Hg as <- <- _.
Qed.

Lemma index_file_returns (from_pydicom : Ds -> string -> Outcome Dixel)
    (reader : DcmFileReader Ext Ds) (R : Redis Ext) prefix fn e :
  exists e', index_file from_pydicom reader R prefix fn e = (Ok tt, e', []).
Proof.
  unfold index_file. cbv [try_except bind quiet lift ret].
  destruct (gw_get reader fn None e) as [[ds|ex] e1]; [|by eexists].
  destruct (from_pydicom ds fn) as [d|ex]; [|by eexists].
  destruct (register R d prefix e1) as [[[]|ex] e2]; by eexists.
Qed.

Lemma index_files_returns (from_pydicom : Ds -> string -> Outcome Dixel)
    (reader : DcmFileReader Ext Ds) (R : Redis Ext) prefix fns e :
  exists e', index_files from_pydicom reader R prefix fns e = (Ok tt, e', []).
Proof.
  revert e. induction fns as [|fn rest IH]; intros e; [by eexists|].
  cbn [index_files]. unfold bind.
  destruct (index_file_returns from_pydicom reader R prefix fn e) as [e1 ->].
  destruct (IH e1) as [e2 ->]. by eexists.
Qed.

Lemma index_dirs_returns (from_pydicom : Ds -> string -> Outcome Dixel)
    (reader : DcmFileReader Ext Ds) (R : Redis Ext) prefix walk e :
  exists e', index_dirs from_pydicom reader R prefix walk e = (Ok tt, e', []).
Proof.
  revert e. induction walk as [|[[root dirs] fns] rest IH]; intros e; [by eexists|].
  cbn [index_dirs]. unfold bind.
  destruct (index_files_returns from_pydicom reader R prefix fns e) as [e1 ->].
  destruct (IH e1) as [e2 ->]. by eexists.
Qed.

(** X14.  [index_to] swallows every failure on a file: whatever the
    gateway's [get], [Dixel.from_pydicom] and [R.register] raise, for
    however many files, it returns normally and logs nothing.  It
    raises only what computing the prefix raises (encoding the path or
    hashing it), in which case the walk is not started, or what the
    directory walk itself raises. *)
Theorem DcmDir_index_to_swallows
    (str_encode : string -> string -> Outcome (list Byte.byte))
    (md5_hexdigest : list Byte.byte -> Outcome string)
    (os_walk : string -> @Act Ext (list (string * list string * list string)))
    (from_pydicom : Ds -> string -> Outcome Dixel)
    (self : DcmDir Ext) (reader : DcmFileReader Ext Ds) (R : Redis Ext) e :
  (DcmDir_index_to str_encode md5_hexdigest os_walk from_pydicom self reader R e).2
    = [] /\
  match index_prefix str_encode md5_hexdigest self with
  | Ok _ =>
      (DcmDir_index_to str_encode md5_hexdigest os_walk from_pydicom self reader R e).1.1
        = forget (os_walk (path self) e).1
  | Raise ex =>
      (DcmDir_index_to str_encode md5_hexdigest os_walk from_pydicom self reader R e).1
        = (Raise ex, e)
  end.
Proof.
  unfold DcmDir_index_to. cbv [bind quiet lift].
  destruct (index_prefix str_encode md5_hexdigest self) as [prefix|ex]; [|done].
  destruct (os_walk (path self) e) as [[walk|ex] e1]; [|done].
  destruct (index_dirs_returns from_pydicom reader R prefix walk e1) as [e2 ->]. done.
Qed.

End DcmDirProperties.

(** ** The [dgetall] command *)

Section DgetallProperties.

Context {Ext : Type}.

Lemma collect_items_nonempty (walk : list (string * list string * list string)) :
  collect_items walk = match walk with [] => Ok [] | _ :: _ => Raise TypeError end.
Proof. by destruct walk as [|[[root dirs] files] rest]. Qed.

(** X15.  The command never gets anything: [os.path.join] is applied to
    the list of file names of the first directory and raises
    [TypeError], so [source.get] is not called and [ctx.obj["items"]]
    never grows.  It returns only when the walk is empty; in every case
    [ctx.obj["items"]] is what it was, or the empty list when it was
    absent or empty, whatever [binary] is. *)
Theorem dgetall_gets_nothing
    (os_walk : string -> @Act Ext (list (string * list string * list string)))
    (source : Endpoint Ext) (binary : bool) (st : Cli Ext) :
  let '(o, st') := dgetall_cli os_walk source binary st in
  ctx_items st' = Some (match ctx_items st with Some l => l | None => [] end) /\
  match ep_path source with
  | Raise ex => o = Raise ex /\ cli_ext st' = cli_ext st
  | Ok p =>
      match os_walk p (cli_ext st) with
      | (Raise ex, e') => o = Raise ex /\ cli_ext st' = e'
      | (Ok [], e') => o = Ok tt /\ cli_ext st' = e'
      | (Ok (_ :: _), e') => o = Raise TypeError /\ cli_ext st' = e'
      end
  end.
Proof.
  unfold dgetall_cli.
  assert (Hi : match ctx_items st with Some (d :: l) => Some (d :: l) | _ => Some [] end
               = Some (match ctx_items st with Some l => l | None => [] end)).
  { by destruct (ctx_items st) as [[|d l]|]. }
  destruct (ep_path source) as [p|ex].
  - destruct (ep_is_DcmDir source); cbn [cli_ext ctx_items echoed];
      destruct (os_walk p (cli_ext st)) as [[walk|ex] e']; try (by split);
      rewrite collect_items_nonempty; destruct walk; by split.
  - destruct (ep_is_DcmDir source); by split.
Qed.

End DgetallProperties.


(** * The scenarios *)

Ltac in_list_at n := apply (nth_error_In _ n); vm_compute; exact eq_refl.

Ltac in_list :=
  first [ in_list_at 0%nat | in_list_at 1%nat | in_list_at 2%nat | in_list_at 3%nat
        | in_list_at 4%nat | in_list_at 5%nat | in_list_at 6%nat | in_list_at 7%nat
        | in_list_at 8%nat | in_list_at 9%nat ].

Ltac by_vm := vm_compute; exact eq_refl.

Ltac counter_range :=
  unfold below_max, INT_MIN, INT_MAX; vm_compute; split; [discriminate|exact eq_refl].

(** The run [x], unfolded, with its outcome [o]. *)
Ltac run_fact H x o :=
  let y := eval cbv delta [x] in x in
  assert (H : y = (o, x.1.2, x.2)) by (apply (run_eta x); by_vm).

(** C1.  Scenario D on the pooled path: the five studies are all at the
    destination, and [run] with [pool_size = 2] raises from the
    [Process] constructor after reading the clock.  No item reaches
    [handle_item], and the counters are left at (0, 0, 0) rather than
    (0, 5, 0). *)
Theorem scenario_D_pooled_handles_nothing :
  forallb (fun i => match (dest_exists Scenario.raw_dest (heap Scenario.w_d i)
                             (ext Scenario.w_d)).1 with
                    | Ok true => true
                    | _ => false
                    end) [0; 1; 2; 3; 4]%nat = true /\
  Scenario.run_d_pooled.1.1 = Raise AssertionError /\
  Scenario.counters Scenario.run_d_pooled.1.2 = (0, 0, 0) /\
  Scenario.run_d_pooled.2 = [Now (Ok 0)] /\
  existsb is_handler_event Scenario.run_d_pooled.2 = false.
Proof. repeat split; by_vm. Qed.

(** Scenario C is a run to which C2 applies. *)
Lemma handle_item_counts_once_witness :
  Scenario.run_c.1.1 = Ok tt /\
  exactly_one_incremented Scenario.w_c Scenario.run_c.1.2.
Proof.
  run_fact H Scenario.run_c (Ok tt).
  split; [by_vm|].
  apply (handle_item_counts_once _ _ _ _ _ _ _ _ _ _ H); counter_range.
Defined.

(** A report without category is a run to which C3 applies. *)
Lemma key_extraction_recovers_witness :
  report (heap Scenario.w_unrated 0) = Scenario.unrated /\
  exists key_id kd,
    key_extraction (heap Scenario.w_unrated 0) Scenario.w_unrated =
      (Ok (key_id, kd), Scenario.w_unrated, [Log ERROR (MsgException ValueError)]) /\
    tags (heap Scenario.w_unrated 0) !! "AccessionNumber" = Some key_id /\
    kd_radcat kd = "".
Proof.
  split; [reflexivity|].
  destruct (proj1 (key_extraction_recovers Scenario.rt 0 Scenario.source_c
                     Scenario.raw_dest None true None Scenario.w_unrated)
              {| radcat := Raise ValueError |})
    as (key_id & kd & Hk & Hid & Hrc & _).
  - reflexivity.
  - reflexivity.
  - repeat split; eexists; by_vm.
  - exists key_id, kd. split; [exact Hk|]. split; [exact Hid|exact Hrc].
Defined.

(** Scenario A is a run to which C4 applies. *)
Lemma handle_item_skips_existing_witness :
  In (DestExists (heap Scenario.w_a 0) (Ok true)) Scenario.run_a.2 /\
  Scenario.run_a.1.1 = Ok tt /\
  (forall e, In e Scenario.run_a.2 -> is_fetch_or_store e = false) /\
  handled Scenario.run_a.1.2 = handled Scenario.w_a /\
  failed Scenario.run_a.1.2 = failed Scenario.w_a /\
  skipped Scenario.run_a.1.2 = skipped Scenario.w_a + 1.
Proof.
  run_fact H Scenario.run_a (Ok tt).
  assert (Hin : In (DestExists (heap Scenario.w_a 0) (Ok true)) Scenario.run_a.2)
    by in_list.
  destruct (handle_item_skips_existing _ _ _ _ _ _ _ _ _ _ _ _ H Hin)
    as (Ho & Hev & Hh & Hf & _ & Hs).
  split; [exact Hin|]. split; [by_vm|]. split; [exact Hev|].
  split; [exact Hh|]. split; [exact Hf|]. apply Hs. counter_range.
Defined.

(** Scenario B is a run to which C5 applies. *)
Lemma handle_item_resolution_witness :
  In (SourceFind (accession_query "ACC002") true (Ok [])) Scenario.run_b.2 /\
  Scenario.run_b.1.1 = Ok tt /\
  handled Scenario.run_b.1.2 = handled Scenario.w_b /\
  skipped Scenario.run_b.1.2 = skipped Scenario.w_b /\
  failed Scenario.run_b.1.2 = failed Scenario.w_b + 1 /\
  tags (heap Scenario.run_b.1.2 0) = tags (heap Scenario.w_b 0).
Proof.
  run_fact H Scenario.run_b (Ok tt).
  assert (Hin : In (SourceFind (accession_query "ACC002") true (Ok []))
                   Scenario.run_b.2) by in_list.
  destruct (handle_item_resolution _ _ _ _ _ _ _ _ _ _ _ _ _ _ H Hin)
    as (_ & _ & Ho & Hh & Hs & _ & Hf & Ht & _).
  split; [exact Hin|]. split; [by_vm|]. split; [exact Hh|]. split; [exact Hs|].
  split; [|exact Ht]. apply Hf. counter_range.
Defined.

(** A payload that is not found is a run to which C6 applies. *)
Lemma handle_item_fetch_failure_witness :
  In (ProxyGet Scenario.merged VFILE (Raise FileNotFoundError)) Scenario.run_lost.2 /\
  Scenario.run_lost.1.1 = Ok tt /\
  handled Scenario.run_lost.1.2 = handled Scenario.w_c /\
  skipped Scenario.run_lost.1.2 = skipped Scenario.w_c /\
  failed Scenario.run_lost.1.2 = failed Scenario.w_c + 1 /\
  (forall e, In e Scenario.run_lost.2 -> is_store_or_delete e = false).
Proof.
  run_fact H Scenario.run_lost (Ok tt).
  assert (Hin : In (ProxyGet Scenario.merged VFILE (Raise FileNotFoundError))
                   Scenario.run_lost.2) by in_list.
  destruct (handle_item_fetch_failure _ _ _ _ _ _ _ _ _ _ _ _ _ _ H Hin)
    as (_ & Hnf & _).
  destruct (Hnf eq_refl) as (Ho & Hh & Hs & _ & Hf & Hev).
  split; [exact Hin|]. split; [by_vm|]. split; [exact Hh|]. split; [exact Hs|].
  split; [|exact Hev]. apply Hf. counter_range.
Defined.

(** Scenario C with anonymization requested, for a raw and for an image
    destination, are runs to which C7 applies. *)
Lemma handle_item_anonymizes_iff_witness :
  In (ProxyExists Scenario.merged (Ok true)) Scenario.run_anon.2 /\
  (exists res, In (ProxyAnonymize Scenario.merged true res) Scenario.run_anon.2) /\
  (exists res, In (ProxyGet Scenario.anonymized VFILE res) Scenario.run_anon.2) /\
  In (ProxyExists Scenario.merged (Ok true)) Scenario.run_im.2 /\
  (forall e, In e Scenario.run_im.2 -> is_anonymize e = false) /\
  (exists res, In (ProxyGet Scenario.merged VFILE res) Scenario.run_im.2).
Proof.
  run_fact H Scenario.run_anon (Ok tt).
  run_fact H' Scenario.run_im (Ok tt).
  assert (Hin : In (ProxyExists Scenario.merged (Ok true)) Scenario.run_anon.2)
    by in_list.
  assert (Him : In (ProxyExists Scenario.merged (Ok true)) Scenario.run_im.2)
    by in_list.
  assert (Han : In (ProxyAnonymize Scenario.merged true (Ok Scenario.anonymized))
                   Scenario.run_anon.2) by in_list.
  destruct (handle_item_anonymizes_iff _ _ _ _ _ _ _ _ _ _ _ _ H Hin)
    as (Hiff & _ & Hget & _).
  destruct (handle_item_anonymizes_iff _ _ _ _ _ _ _ _ _ _ _ _ H' Him)
    as (_ & _ & _ & Hoff).
  split; [exact Hin|]. split; [exact (proj2 Hiff (conj eq_refl eq_refl))|].
  split; [exact (Hget _ Han)|]. split; [exact Him|]. exact (Hoff eq_refl).
Defined.

(** An item that is found but not staged is a run to which C9 applies:
    it is counted as failed and keeps the remote tags. *)
Lemma handle_item_merge_persists_witness :
  In (SourceFind (accession_query "ACC003") true (Ok [Scenario.remote_tags]))
     Scenario.run_unstaged.2 /\
  In (ProxyExists Scenario.merged (Ok false)) Scenario.run_unstaged.2 /\
  Scenario.run_unstaged.1.1 = Ok tt /\
  failed Scenario.run_unstaged.1.2 = c_int (failed Scenario.w_c + 1) /\
  Scenario.remote_tags ⊆ tags (heap Scenario.run_unstaged.1.2 0) /\
  tags (heap Scenario.run_unstaged.1.2 0) =
    Scenario.remote_tags ∪ tags (heap Scenario.w_c 0).
Proof.
  run_fact H Scenario.run_unstaged (Ok tt).
  assert (Hin : In (SourceFind (accession_query "ACC003") true
                      (Ok [Scenario.remote_tags])) Scenario.run_unstaged.2)
    by in_list.
  assert (Hns : In (ProxyExists Scenario.merged (Ok false)) Scenario.run_unstaged.2)
    by in_list.
  destruct (handle_item_merge_persists _ _ _ _ _ _ _ _ _ _ _ _ _ _ _ H Hin)
    as (Ht & Hsub & _ & Hfail & _).
  destruct (Hfail _ _ Hns eq_refl) as (Ho & Hf & _).
  split; [exact Hin|]. split; [exact Hns|]. split; [by_vm|]. split; [exact Hf|].
  split; [exact Hsub|exact Ht].
Defined.

(** C10 on a fetched study and on one without payload. *)
Lemma DcmDir_put_writes_once_witness :
  List.filter is_write Scenario.put_fetched.2 =
    [WriteFile (Scenario.fn Scenario.fetched) Scenario.payload
       Scenario.put_fetched.1.1] /\
  Scenario.put_fetched.1.1 = Ok tt /\
  Scenario.put_empty.1.1 = Raise ValueError /\
  Scenario.put_empty.1.2 = ∅ /\
  List.filter is_write Scenario.put_empty.2 = [].
Proof.
  run_fact H Scenario.put_fetched (Ok tt).
  run_fact H' Scenario.put_empty (@Raise unit ValueError).
  destruct (DcmDir_put_writes_once _ _ _ _ _ _ _ H) as [_ Hw].
  destruct (DcmDir_put_writes_once _ _ _ _ _ _ _ H') as [He _].
  destruct (Hw eq_refl) as [Hw1 _]. destruct (He eq_refl) as (Ho & Hs & He1).
  split; [|split; [by_vm|split; [by_vm|split; [exact Hs|exact He1]]]].
  transitivity [WriteFile (Dixel_fn Scenario.rt Scenario.fetched)
                  (file_bytes (file Scenario.fetched)) (Ok tt)]; [exact Hw1|by_vm].
Defined.

(** ** Where the claims as first stated fail *)

(** C2 as stated fails when a counter holds the largest C int: the item
    is skipped, [handle_item] returns, and [skipped] goes from
    2147483647 to -2147483648, so no counter has gone up by 1. *)
Lemma handle_item_count_wraps :
  Scenario.run_skipped_max.1.1 = Ok tt /\
  Scenario.counters Scenario.w_skipped_max = (0, 2147483647, 0) /\
  Scenario.counters Scenario.run_skipped_max.1.2 = (0, -2147483648, 0) /\
  (exactly_one_incremented Scenario.w_skipped_max Scenario.run_skipped_max.1.2 -> False).
Proof.
  assert (Hh : handled Scenario.run_skipped_max.1.2 = 0) by by_vm.
  assert (Hs : skipped Scenario.run_skipped_max.1.2 = -2147483648) by by_vm.
  assert (Hf : failed Scenario.run_skipped_max.1.2 = 0) by by_vm.
  split; [by_vm|]. split; [by_vm|]. split; [by_vm|].
  unfold exactly_one_incremented. rewrite Hh, Hs, Hf.
  change (handled Scenario.w_skipped_max) with 0.
  change (skipped Scenario.w_skipped_max) with 2147483647.
  change (failed Scenario.w_skipped_max) with 0.
  lia.
Qed.

(** C3 as stated fails on an item without report ([AttributeError]), on
    a categorization that raises something else than [ValueError], and
    on an item that lacks one of the fields read: [handle_item] raises
    during key extraction and nothing further happens. *)
Lemma key_extraction_aborts :
  (Scenario.run_no_report.1.1 = Raise AttributeError /\
   Scenario.run_no_report.2 = []) /\
  (Scenario.run_odd_report.1.1 = Raise (OtherError 7) /\
   Scenario.run_odd_report.2 = []) /\
  (Scenario.run_no_body_part.1.1 = Raise (KeyError "BodyParts") /\
   Scenario.run_no_body_part.2 = []).
Proof. repeat split; by_vm. Qed.

(** C4 as stated fails on an item that is at the destination but has no
    report: [handle_item] raises before the idempotency check and
    [skipped] stays 0.  It also fails when [skipped] holds the largest
    C int. *)
Lemma handle_item_existing_not_skipped :
  ((dest_exists Scenario.raw_dest (heap Scenario.w_no_report 0)
      (ext Scenario.w_no_report)).1 = Ok true /\
   Scenario.run_no_report.1.1 = Raise AttributeError /\
   Scenario.counters Scenario.run_no_report.1.2 = (0, 0, 0)) /\
  (In (DestExists (heap Scenario.w_skipped_max 0) (Ok true)) Scenario.run_skipped_max.2 /\
   skipped Scenario.w_skipped_max = 2147483647 /\
   skipped Scenario.run_skipped_max.1.2 = -2147483648).
Proof.
  split; [repeat split; by_vm|].
  split; [in_list|]. split; by_vm.
Qed.

(** C5 as stated fails when [failed] holds the largest C int:
    [source.find] returns the empty list and [failed] goes from
    2147483647 to -2147483648. *)
Lemma handle_item_not_found_wraps :
  In (SourceFind (accession_query "ACC002") true (Ok [])) Scenario.run_b_max.2 /\
  Scenario.run_b_max.1.1 = Ok tt /\
  failed Scenario.w_failed_max = 2147483647 /\
  failed Scenario.run_b_max.1.2 = -2147483648.
Proof.
  split; [in_list|]. repeat split; by_vm.
Qed.

(** C6 as stated fails when [failed] holds the largest C int: the fetch
    raises [FileNotFoundError] and [failed] goes from 2147483647 to
    -2147483648. *)
Lemma handle_item_fetch_wraps :
  In (ProxyGet Scenario.merged VFILE (Raise FileNotFoundError)) Scenario.run_lost_max.2 /\
  Scenario.run_lost_max.1.1 = Ok tt /\
  failed Scenario.w_lost_max = 2147483647 /\
  failed Scenario.run_lost_max.1.2 = -2147483648.
Proof.
  split; [in_list|]. repeat split; by_vm.
Qed.

(** ** Runs to which the further properties apply *)

(** A fetch that raises something else than [FileNotFoundError]. *)
Lemma handle_item_raise_uncounted_witness :
  Scenario.run_broken.1.1 = Raise (OtherError 3) /\
  same_counters Scenario.w_c Scenario.run_broken.1.2 /\
  (forall ev, In ev Scenario.run_broken.2 -> is_print ev = false).
Proof.
  run_fact H Scenario.run_broken (@Raise unit (OtherError 3)).
  split; [by_vm|]. exact (handle_item_raise_uncounted _ _ _ _ _ _ _ _ _ _ _ H).
Defined.

(** Scenario C. *)
Lemma handle_item_progress_line_witness :
  Scenario.run_c.1.1 = Ok tt /\
  exists pre, Scenario.run_c.2 = pre ++ [progress_line Scenario.run_c.1.2] /\
              (forall ev, In ev pre -> is_print ev = false).
Proof.
  run_fact H Scenario.run_c (Ok tt).
  split; [by_vm|]. exact (handle_item_progress_line _ _ _ _ _ _ _ _ _ _ H).
Defined.

(** The item is found but not staged. *)
Lemma handle_item_not_staged_witness :
  In (ProxyExists Scenario.merged (Ok false)) Scenario.run_unstaged.2 /\
  Scenario.run_unstaged.1.1 = Ok tt /\
  failed Scenario.run_unstaged.1.2 = failed Scenario.w_c + 1 /\
  (forall e, In e Scenario.run_unstaged.2 -> is_after_staging e = false).
Proof.
  run_fact H Scenario.run_unstaged (Ok tt).
  assert (Hin : In (ProxyExists Scenario.merged (Ok false)) Scenario.run_unstaged.2)
    by in_list.
  destruct (handle_item_not_staged _ _ _ _ _ _ _ _ _ _ _ _ H Hin)
    as (_ & _ & _ & _ & Hf & Hev).
  split; [exact Hin|]. split; [by_vm|]. split; [|exact Hev].
  apply Hf. counter_range.
Defined.

(** Scenario C: the fetched record is stored, then deleted. *)
Lemma handle_item_deletes_after_store_witness :
  In (ProxyDelete Scenario.fetched (Ok tt)) Scenario.run_c.2 /\
  In (DestPut Scenario.fetched (Ok tt)) Scenario.run_c.2 /\
  exists d0, In (ProxyGet d0 VFILE (Ok Scenario.fetched)) Scenario.run_c.2.
Proof.
  run_fact H Scenario.run_c (Ok tt).
  assert (Hin : In (ProxyDelete Scenario.fetched (Ok tt)) Scenario.run_c.2) by in_list.
  destruct (handle_item_deletes_after_store _ _ _ _ _ _ _ _ _ _ _ H) as [_ Hdel].
  split; [exact Hin|]. exact (Hdel _ _ Hin).
Defined.

Lemma handle_item_handled_iff_deleted_witness :
  In (ProxyDelete Scenario.fetched (Ok tt)) Scenario.run_c.2 /\
  Scenario.run_c.1.1 = Ok tt /\
  handled Scenario.run_c.1.2 = c_int (handled Scenario.w_c + 1) /\
  skipped Scenario.run_c.1.2 = skipped Scenario.w_c /\
  failed Scenario.run_c.1.2 = failed Scenario.w_c.
Proof.
  run_fact H Scenario.run_c (Ok tt).
  assert (Hin : In (ProxyDelete Scenario.fetched (Ok tt)) Scenario.run_c.2) by in_list.
  destruct (handle_item_handled_iff_deleted _ _ _ _ _ _ _ _ _ _ _ H) as [Hdel _].
  split; [exact Hin|]. exact (Hdel _ Hin).
Defined.

(** Scenario A with a report destination: the item is skipped and its
    report is written. *)
Lemma handle_item_report_before_check_witness :
  In (DestExists (heap Scenario.w_a 0) (Ok true)) Scenario.run_a_reported.2 /\
  In (ReportPut (heap Scenario.w_a 0) (Ok tt)) Scenario.run_a_reported.2.
Proof.
  run_fact H Scenario.run_a_reported (Ok tt).
  assert (Hin : In (DestExists (heap Scenario.w_a 0) (Ok true))
                   Scenario.run_a_reported.2) by in_list.
  destruct (handle_item_report_before_check Scenario.rt 0 Scenario.source_c
              Scenario.raw_dest (Some Scenario.report_dir) true None Scenario.w_a
              _ _ _ _ _ H Hin)
    as (_ & _ & _ & Hrep).
  split; [exact Hin|]. exact (Hrep eq_refl).
Defined.

(** Scenario A with a key handler: line 142 raises before anything is
    called, although the item is at the destination. *)
Lemma handle_item_never_puts_key_witness :
  kh_truthy Scenario.key_handler = true /\
  Scenario.run_a_keyed.1.1 = Raise TypeError /\
  Scenario.run_a_keyed.1.2 = Scenario.w_a /\
  (forall args r, ~ In (KeyPut args r) Scenario.run_a_keyed.2).
Proof.
  assert (H : handle_item Scenario.rt 0 Scenario.source_c Scenario.raw_dest
                (Some Scenario.report_dir) true (Some Scenario.key_handler) Scenario.w_a
              = (Scenario.run_a_keyed.1.1, Scenario.run_a_keyed.1.2,
                 Scenario.run_a_keyed.2))
    by (by destruct Scenario.run_a_keyed as [[] ?] eqn:E).
  destruct (handle_item_never_puts_key _ _ _ _ _ _ _ _ _ _ _ H) as [Hno Hkeyed].
  destruct (Hkeyed Scenario.key_handler eq_refl eq_refl) as (_ & Hw & _ & _).
  split; [reflexivity|]. split; [by_vm|]. split; [exact Hw|exact Hno].
Defined.

(** Scenario D through the serial loop. *)
Lemma serial_loop_counts_every_item_witness :
  Scenario.loop_d.1.1 = Ok tt /\
  total Scenario.loop_d.1.2 = total Scenario.w_d + 5 /\
  skipped Scenario.w_d <= skipped Scenario.loop_d.1.2.
Proof.
  run_fact H Scenario.loop_d (Ok tt).
  assert (R1 : room_for 5 (handled Scenario.w_d)) by (vm_compute; split; discriminate).
  assert (R2 : room_for 5 (skipped Scenario.w_d)) by (vm_compute; split; discriminate).
  assert (R3 : room_for 5 (failed Scenario.w_d)) by (vm_compute; split; discriminate).
  destruct (serial_loop_counts_every_item Scenario.rt [0; 1; 2; 3; 4]%nat
              Scenario.source_c Scenario.raw_dest None true None Scenario.w_d
              _ _ H R1 R2 R3)
    as (_ & Hs & _ & Ht).
  split; [by_vm|]. split; [exact Ht|exact Hs].
Defined.

(** Scenario D through [run], serial. *)
Lemma run_serial_summary_witness :
  pool_size (Collector_new 0) = 0 /\
  Scenario.run_d_serial.1.1 = Ok tt /\
  exists tic toc mid,
    Scenario.run_d_serial.2 =
      Now (Ok tic) :: mid ++
      [Now (Ok toc);
       Print (SummaryHandled (handled Scenario.run_d_serial.1.2) (elapsed_time tic toc));
       Print (SummaryRate
                (round (binary64 (inject_Z (handled Scenario.run_d_serial.1.2) /
                                  inject_Z (elapsed_time tic toc))) 1));
       Print (SummarySkipped (skipped Scenario.run_d_serial.1.2));
       Print (SummaryFailed (failed Scenario.run_d_serial.1.2))] /\
    1 <= elapsed_time tic toc /\
    (forall e, In e mid -> is_handler_event e = true).
Proof.
  run_fact H Scenario.run_d_serial (Ok tt).
  split; [reflexivity|]. split; [by_vm|].
  exact (proj1 (run_serial_summary Scenario.rt_unkeyed (Collector_new 0)
                  [0; 1; 2; 3; 4]%nat Scenario.source_c "/data" true true false
                  (1 # 10) Scenario.w_d _ _ eq_refl H)).
Defined.

(** Scenario C through [run], saving as images with anonymization
    requested. *)
Lemma run_as_images_never_anonymizes_witness :
  Scenario.run_c_images.1.1 = Ok tt /\
  handled Scenario.run_c_images.1.2 = 1 /\
  (forall e, In e Scenario.run_c_images.2 -> is_anonymize e = false).
Proof.
  run_fact H Scenario.run_c_images (Ok tt).
  split; [by_vm|]. split; [by_vm|].
  exact (run_as_images_never_anonymizes _ _ _ _ _ _ _ _ _ _ _ _ H).
Defined.

(** Scenario D through [run], pooled. *)
Lemma run_pooled_never_handles_witness :
  pool_size (Collector_new 2) <> 0 /\
  (exists e, Scenario.run_d_pooled.1.1 = Raise e) /\
  same_counters Scenario.w_d Scenario.run_d_pooled.1.2 /\
  heap Scenario.run_d_pooled.1.2 = heap Scenario.w_d.
Proof.
  run_fact H Scenario.run_d_pooled (@Raise unit AssertionError).
  assert (Hp : pool_size (Collector_new 2) <> 0) by discriminate.
  destruct (run_pooled_never_handles _ _ _ _ _ _ _ _ _ _ _ _ _ Hp H)
    as (Ho & Hc & Hh & _).
  split; [exact Hp|]. split; [|split; [exact Hc|exact Hh]].
  exists AssertionError. by_vm.
Defined.

(** A fetched record without payload and a [DcmDir] destination. *)
Lemma handle_item_store_failure_witness :
  In (DestPut (Scenario.study "ACC003" Scenario.rated None) (Raise ValueError))
     Scenario.run_hollow.2 /\
  Scenario.run_hollow.1.1 = Raise ValueError /\
  same_counters Scenario.w_c Scenario.run_hollow.1.2 /\
  (forall e, In e Scenario.run_hollow.2 -> is_delete e = false).
Proof.
  run_fact H Scenario.run_hollow (@Raise unit ValueError).
  assert (Hin : In (DestPut (Scenario.study "ACC003" Scenario.rated None)
                      (Raise ValueError)) Scenario.run_hollow.2) by in_list.
  destruct (handle_item_store_failure _ _ _ _ _ _ _ _ _ _ _ _ _ H Hin)
    as (_ & Hc & Hev & _).
  split; [exact Hin|]. split; [by_vm|]. split; [exact Hc|exact Hev].
Defined.

(** The item that is found but not staged, in a heap of one object. *)
Lemma handle_item_frame_witness :
  Scenario.run_unstaged.1.1 = Ok tt /\
  (forall other, other <> 0%nat ->
     heap Scenario.run_unstaged.1.2 other = heap Scenario.w_c other) /\
  meta (heap Scenario.run_unstaged.1.2 0) = meta (heap Scenario.w_c 0) /\
  file (heap Scenario.run_unstaged.1.2 0) = file (heap Scenario.w_c 0).
Proof.
  run_fact H Scenario.run_unstaged (Ok tt).
  destruct (handle_item_frame _ _ _ _ _ _ _ _ _ _ _ H) as (Ho & Hm & _ & Hf & _).
  split; [by_vm|]. split; [exact Ho|]. split; [exact Hm|exact Hf].
Defined.

(** Scenario C with anonymization: all the stages, in order. *)
Lemma handle_item_stage_order_witness :
  Scenario.run_anon.1.1 = Ok tt /\
  omap call_stage Scenario.run_anon.2 = [2; 3; 4; 5; 6; 7; 8; 9]%nat /\
  increasing_from 0 (omap call_stage Scenario.run_anon.2) = true.
Proof.
  run_fact H Scenario.run_anon (Ok tt).
  split; [by_vm|]. split; [by_vm|].
  exact (handle_item_stage_order _ _ _ _ _ _ _ _ _ _ _ H).
Defined.

(** The file store of the scenarios keeps what it writes: [put] of the
    fetched study, then [get] with the file. *)
Lemma DcmDir_put_get_round_trip_witness :
  Scenario.put_fetched.1.1 = Ok tt /\
  Scenario.get_fetched.1.1 =
    Ok (set_file (file Scenario.fetched) (Scenario.study "ACC003.dcm" Scenario.rated None)).
Proof.
  run_fact Hput Scenario.put_fetched (Ok tt).
  assert (Hg : Scenario.get_fetched
               = (Scenario.get_fetched.1.1, Scenario.get_fetched.1.2,
                  Scenario.get_fetched.2)) by (by destruct Scenario.get_fetched as [[] ?]).
  unfold Scenario.get_fetched at 1 in Hg.
  pose (holds := fun (s : Scenario.Store) (name : string) (data : list Byte.byte) =>
                   s !! name = Some data).
  assert (L1 : forall name data s s',
             write_file (gateway Scenario.dcm_dir) name data s = (Ok tt, s') ->
             holds s' name data).
  { intros name data s s' Hw. injection Hw as <-. apply lookup_insert_eq. }
  assert (L2 : forall name data s, holds s name data ->
             exists s', gw_exists (gateway Scenario.dcm_dir) (FnStr name) s = (Ok true, s')
                        /\ holds s' name data).
  { intros name data s Hs. exists s. split; [|exact Hs].
    cbn. unfold Scenario.arg_name. unfold holds in Hs. by rewrite Hs. }
  assert (L3 : forall name data px s r s', holds s name data ->
             gw_get Scenario.reader name px s = (r, s') -> holds s' name data).
  { intros name data px s r s' Hs Hgw. apply (f_equal snd) in Hgw.
    simpl in Hgw. by subst s'. }
  assert (L4 : forall name data s, holds s name data ->
             exists s', read_file Scenario.reader name s = (Ok data, s')).
  { intros name data s Hs. exists s. cbn. unfold holds in Hs. by rewrite Hs. }
  destruct (DcmDir_put_get_round_trip Scenario.rt Scenario.from_pydicom
              Scenario.dcm_dir Scenario.reader holds Scenario.fetched false
              _ _ _ _ _ _ L1 L2 L3 L4 Hput Hg) as (ea & Hex & Hm).
  split; [by_vm|].
  assert (Hea : ea = Scenario.put_fetched.1.2).
  { apply (f_equal snd) in Hex. vm_compute in Hex. subst ea. by_vm. }
  subst ea. revert Hm. vm_compute. intros Hm. exact Hm.
Defined.

(** [update] with a class attribute that cannot be read. *)
Lemma DcmDir_update_ignores_payload_witness :
  file_truthy (file Scenario.fetched) = true /\
  Scenario.update_fetched.1.1 = Raise AttributeError /\
  (forall item', file_truthy (file item') = true ->
     DcmDir_update (Raise AttributeError) Scenario.dcm_dir "other.dcm" item' ∅
       = (Scenario.update_fetched.1.1, Scenario.update_fetched.1.2,
          Scenario.update_fetched.2)).
Proof.
  assert (Hu : DcmDir_update (Raise AttributeError) Scenario.dcm_dir "other.dcm"
                 Scenario.fetched ∅
               = (Scenario.update_fetched.1.1, Scenario.update_fetched.1.2,
                  Scenario.update_fetched.2))
    by (by destruct Scenario.update_fetched as [[] ?] eqn:E).
  destruct (DcmDir_update_ignores_payload _ _ _ _ _ _ _ _ Hu eq_refl) as [Hall _].
  split; [reflexivity|]. split; [by_vm|exact Hall].
Defined.

(** The fetched study is stored, deleted and asked for again. *)
Lemma DcmDir_delete_then_get_witness :
  Scenario.delete_fetched.1.1 = Ok tt /\
  Scenario.get_deleted.1.1 = Raise FileNotFoundError.
Proof.
  run_fact Hd Scenario.delete_fetched (Ok tt).
  assert (Hg : Scenario.get_deleted
               = (Scenario.get_deleted.1.1, Scenario.get_deleted.1.2,
                  Scenario.get_deleted.2)) by (by destruct Scenario.get_deleted as [[] ?]).
  unfold Scenario.get_deleted at 1 in Hg.
  assert (L : forall name s s',
             gw_delete Scenario.reader name s = (Ok tt, s') ->
             exists s'', gw_exists (gateway Scenario.dcm_dir) (FnStr name) s'
                         = (Ok false, s'')).
  { intros name s s' H. apply (f_equal snd) in H. simpl in H. subst s'.
    exists (delete name s).
    change (gw_exists (gateway Scenario.dcm_dir) (FnStr name) (delete name s))
      with (Ok (match delete name s !! name with Some _ => true | None => false end),
            delete name s).
    unfold Scenario.Store in *. by rewrite lookup_delete_eq. }
  split; [by_vm|].
  exact (DcmDir_delete_then_get Scenario.rt Scenario.from_pydicom Scenario.dcm_dir
           Scenario.reader (ArgDixel Scenario.fetched) false true
           _ _ _ _ _ _ _ L Hd Hg ltac:(by_vm)).
Defined.
